(** * find_school_districts: a shallow embedding and its properties

    The program geocodes school addresses, loads school-district polygons
    for one state, joins points to the polygons that contain them, filters
    the joined pairs by grade range and writes two CSV tables.

    The embedding follows [find_school_districts.py] function by function.
    Tables are column oriented, as pandas has them: a frame is an ordered
    list of named columns and the source's vectorised statements
    ([df[c]], [df[c] = v], [df[mask]], [df[[c1, c2]]]) are list operations
    on whole columns.  Python exceptions are values of an error monad.

    What the external libraries decide is taken as a parameter of the
    development ([Section] variables): the geocoding provider, the
    conversion of a coordinate to a float, the number the float parser makes of a
    literal, the point-in-polygon predicate and, for the script, the
    readers of the two input files, the process environment and the
    constructor of the provider's client. *)

From Stdlib Require Import List String Ascii ZArith QArith Bool Lia Arith.
From Stdlib Require Import Sorted.
Import ListNotations.

Local Open Scope string_scope.
Local Open Scope Z_scope.

(** ** Exceptions and the error monad *)

Inductive exn : Type :=
| IndexError
| KeyError (key : string)
| TypeError
| IntCastingNaNError
| ValueError
| ProviderError.

Inductive result (A : Type) : Type :=
| Ok (a : A)
| Raise (e : exn).

Arguments Ok {A} a.
Arguments Raise {A} e.

Definition bind {A B : Type} (m : result A) (k : A -> result B) : result B :=
  match m with
  | Ok a => k a
  | Raise e => Raise e
  end.

Notation "x <- m ;; k" := (bind m (fun x => k))
  (at level 61, m at next level, right associativity).

(** A vectorised operation raises as soon as one element does. *)
Fixpoint mapM {A B : Type} (f : A -> result B) (l : list A) : result (list B) :=
  match l with
  | [] => Ok []
  | x :: xs => y <- f x ;; ys <- mapM f xs ;; Ok (y :: ys)
  end.

(** ** Cells and frames *)

(** A numeric scalar as pandas holds it: an integer, a finite float, an
    infinity, or NaN.  The numbers of an integer column are integers; a
    column with a missing number is a float column, whose numbers are
    floats. *)
Inductive numeric : Type :=
| NInt (z : Z)
| NFloat (q : Q)
| NInf (negative : bool)
| NNaN.

(** Geometries: a point is (longitude, latitude), a polygon its boundary
    ring. *)
Inductive geometry : Type :=
| Point (lng lat : Q)
| Polygon (ring : list (Q * Q)).

(** What a table cell can hold: a number, a missing value, a string, a
    geometry, or a Python list (the aggregated district names). *)
#[warnings="-register-all"]
Inductive cell : Type :=
| CNum (n : numeric)
| CNone
| CStr (s : string)
| CGeom (g : geometry)
| CList (l : list cell).

Definition Column : Type := list cell.

(** A frame: named columns in column order.  Rows are identified by their
    position, the default RangeIndex that [pd.read_csv] gives the school
    table.  The polygon table keeps the row labels of its file when it is
    filtered; the program never reads them (it groups and aligns on the
    school labels) and frames do not carry them. *)
Definition DataFrame : Type := list (string * Column).

Definition columns (df : DataFrame) : list string := map fst df.

(** [df[name]] *)
Fixpoint getcol (df : DataFrame) (name : string) : result Column :=
  match df with
  | [] => Raise (KeyError name)
  | (n, c) :: rest => if String.eqb n name then Ok c else getcol rest name
  end.

(** [df[name] = values]: replaces the column in place when it exists,
    appends it as the last column otherwise. *)
Fixpoint setcol (df : DataFrame) (name : string) (values : Column) : DataFrame :=
  match df with
  | [] => [(name, values)]
  | (n, c) :: rest =>
      if String.eqb n name then (n, values) :: rest
      else (n, c) :: setcol rest name values
  end.

(** [df[[n1, n2, ...]]] *)
Definition project (df : DataFrame) (names : list string) : result DataFrame :=
  mapM (fun n => c <- getcol df n ;; Ok (n, c)) names.

(** Boolean-mask selection on one column and on a frame, [df[mask]]. *)
Fixpoint select {A : Type} (mask : list bool) (l : list A) : list A :=
  match mask, l with
  | b :: mask', x :: l' => if b then x :: select mask' l' else select mask' l'
  | _, _ => []
  end.

Definition filter_rows (mask : list bool) (df : DataFrame) : DataFrame :=
  map (fun nc => (fst nc, select mask (snd nc))) df.

(** [column == s] for a string [s], element by element. *)
Definition cell_eq_str (c : cell) (s : string) : bool :=
  match c with
  | CStr t => String.eqb t s
  | _ => false
  end.

(** ** Numeric coercion: [pd.to_numeric(col, errors="coerce").fillna(0).astype(int)] *)

Definition is_space (c : ascii) : bool :=
  let n := nat_of_ascii c in
  (Nat.eqb n 32 || (Nat.leb 9 n && Nat.leb n 13))%bool.

Definition is_digit (c : ascii) : bool :=
  let n := nat_of_ascii c in (Nat.leb 48 n && Nat.leb n 57)%bool.

Definition digit_value (c : ascii) : Z := Z.of_nat (nat_of_ascii c) - 48.

Fixpoint skip_spaces (l : list ascii) : list ascii :=
  match l with
  | c :: l' => if is_space c then skip_spaces l' else l
  | [] => []
  end.

(** Longest prefix of digits, and what follows it. *)
Fixpoint span_digits (l : list ascii) : list ascii * list ascii :=
  match l with
  | c :: l' =>
      if is_digit c
      then let '(ds, rest) := span_digits l' in (c :: ds, rest)
      else ([], l)
  | [] => ([], [])
  end.

Definition digits_value (ds : list ascii) : Z :=
  fold_left (fun acc c => 10 * acc + digit_value c) ds 0.

Definition take_sign (l : list ascii) : bool * list ascii :=
  match l with
  | "-"%char :: l' => (true, l')
  | "+"%char :: l' => (false, l')
  | _ => (false, l)
  end.

(** What the scanner of [to_numeric] makes of a string. *)
Inductive literal : Type :=
| IntLit (z : Z)          (* digits only: an integer *)
| FloatLit                (* a decimal point or an exponent was seen *)
| InfLit (negative : bool)
| NoParse.

Definition lower (c : ascii) : ascii :=
  let n := nat_of_ascii c in
  if (Nat.leb 65 n && Nat.leb n 90)%bool then ascii_of_nat (n + 32) else c.

Definition lowercase (s : string) : string :=
  string_of_list_ascii (map lower (list_ascii_of_string s)).

Definition scan_inf (s : string) : literal :=
  let t := lowercase s in
  if (String.eqb t "inf" || String.eqb t "+inf"
      || String.eqb t "infinity" || String.eqb t "+infinity")%bool
  then InfLit false
  else if (String.eqb t "-inf" || String.eqb t "-infinity")%bool
  then InfLit true
  else NoParse.

(** The number grammar: optional blanks, optional sign, digits with an
    optional decimal point (one digit at least), an optional exponent with
    one digit at least, optional blanks, end of string.  A string outside
    the grammar is an infinity when it spells one and no number otherwise. *)
Definition scan (s : string) : literal :=
  let l0 := skip_spaces (list_ascii_of_string s) in
  let '(neg, l1) := take_sign l0 in
  let '(ds, l2) := span_digits l1 in
  let '(dot, fs, l3) :=
    match l2 with
    | "."%char :: l2' => let '(fs, r) := span_digits l2' in (true, fs, r)
    | _ => (false, [], l2)
    end in
  match ds, fs with
  | [], [] => scan_inf s
  | _, _ =>
      let '(expo, exp_ok, l4) :=
        match l3 with
        | c :: l3' =>
            if (Ascii.eqb c "e" || Ascii.eqb c "E")%bool
            then let '(_, l3'') := take_sign l3' in
                 let '(es, r) := span_digits l3'' in
                 match es with
                 | [] => (true, false, l3)
                 | _ => (true, true, r)
                 end
            else (false, true, l3)
        | [] => (false, true, [])
        end in
      match skip_spaces l4 with
      | [] =>
          if exp_ok
          then if (dot || expo)%bool then FloatLit
               else IntLit (if neg then - digits_value ds else digits_value ds)
          else scan_inf s
      | _ => scan_inf s
      end
  end.

(** Integers up to 2^53 in magnitude are the same number in an int64 and in
    a float64 column. *)
Definition exact_int (z : Z) : bool := Z.abs z <=? 2 ^ 53.

(** The 64-bit integers, the wrap-around of an integer into them, and the
    cast of a float to them: truncation towards zero, and the least int64
    for a float that is out of range (what the cast gives on x86-64). *)
Definition in_int64 (z : Z) : bool := ((- 2 ^ 63 <=? z) && (z <? 2 ^ 63))%bool.

Definition wrap_int64 (z : Z) : Z := (z + 2 ^ 63) mod 2 ^ 64 - 2 ^ 63.

Definition truncate (q : Q) : Z := Z.quot (Qnum q) (Zpos (Qden q)).

Definition float_to_int64 (q : Q) : Z :=
  if in_int64 (truncate q) then truncate q else - 2 ^ 63.

(** [fillna(0)] and [astype(int)] on one numeric value.  NaN and the
    infinities cannot be cast.  The integers of a numeric column are 64-bit,
    signed or unsigned, and the cast of an unsigned one wraps around. *)
Definition fillna0 (n : numeric) : numeric :=
  match n with
  | NNaN => NInt 0
  | _ => n
  end.

Definition astype_int (n : numeric) : result Z :=
  match n with
  | NInt z => Ok (wrap_int64 z)
  | NFloat q => Ok (float_to_int64 q)
  | NInf _ => Raise IntCastingNaNError
  | NNaN => Raise IntCastingNaNError
  end.

Section Loader.

(** The number pandas makes of a literal of the number grammar that is not
    an integer of at most 2^53 in magnitude: a float, an infinity when the
    literal overflows and the parser says so, NaN when the parser reports a
    range error, the integer itself for a larger integer in a column that
    stays integral. *)
Variable float_value : string -> numeric.

(** [pd.to_numeric(..., errors="coerce")] on one cell: numbers pass, a
    string is scanned, everything else is NaN. *)
Definition to_numeric (c : cell) : numeric :=
  match c with
  | CNum n => n
  | CStr s =>
      match scan s with
      | IntLit z => if exact_int z then NInt z else float_value s
      | FloatLit => float_value s
      | InfLit neg => NInf neg
      | NoParse => NNaN
      end
  | _ => NNaN
  end.

Definition coerce_grade (c : cell) : result Z :=
  astype_int (fillna0 (to_numeric c)).

Definition coerce_column (col : Column) : result Column :=
  zs <- mapM coerce_grade col ;; Ok (map (fun z => CNum (NInt z)) zs).

(** ** [read_shapefile]

    [gdf] is the table [gpd.read_file(path)] returned. *)
Definition read_shapefile (gdf : DataFrame) (state_fip : string) : result DataFrame :=
  statefp <- getcol gdf "STATEFP" ;;
  let state_gdf := filter_rows (map (fun c => cell_eq_str c state_fip) statefp) gdf in
  lo <- getcol state_gdf "LOGRADE" ;;
  lo' <- coerce_column lo ;;
  let state_gdf := setcol state_gdf "LOGRADE" lo' in
  hi <- getcol state_gdf "HIGRADE" ;;
  hi' <- coerce_column hi ;;
  let state_gdf := setcol state_gdf "HIGRADE" hi' in
  project state_gdf ["NAME"; "geometry"; "LOGRADE"; "HIGRADE"].

End Loader.


(** ** The geocoder adapter *)

(** A decoded JSON value, as the provider's client library returns it.
    A dictionary is its list of entries, keys distinct. *)
#[warnings="-register-all"]
Inductive json : Type :=
| JNull
| JBool (b : bool)
| JNum (q : Q)
| JStr (s : string)
| JList (l : list json)
| JDict (d : list (string * json)).

Fixpoint dict_get (d : list (string * json)) (key : string) : option json :=
  match d with
  | [] => None
  | (k, v) :: rest => if String.eqb k key then Some v else dict_get rest key
  end.

(** [x[0]] *)
Definition getitem0 (x : json) : result json :=
  match x with
  | JList [] => Raise IndexError
  | JList (a :: _) => Ok a
  | JStr EmptyString => Raise IndexError
  | JStr (String c _) => Ok (JStr (String c EmptyString))
  | JDict _ => Raise (KeyError "0")
  | _ => Raise TypeError
  end.

(** [x[key]] for a string [key] *)
Definition getitem (x : json) (key : string) : result json :=
  match x with
  | JDict d =>
      match dict_get d key with
      | Some v => Ok v
      | None => Raise (KeyError key)
      end
  | _ => Raise TypeError
  end.

Definition is_JStr (key : string) (x : json) : bool :=
  match x with
  | JStr s => String.eqb s key
  | _ => false
  end.

(** [key in x] for a string [key]: a key of a dictionary, an element of a
    list, a substring of a string. *)
Definition contains (key : string) (x : json) : result bool :=
  match x with
  | JDict d =>
      Ok (match dict_get d key with Some _ => true | None => false end)
  | JList l => Ok (existsb (is_JStr key) l)
  | JStr s =>
      Ok (match String.index 0 key s with Some _ => true | None => false end)
  | _ => Raise TypeError
  end.

Section Geocoder.

(** [client.geocode]: the provider's answer to an address, or the
    exception of a transport or authentication failure. *)
Variable client : string -> result json.

(** The float [Point(x, y)] makes of a coordinate argument. *)
Variable coord_of : json -> result Q.

Definition get_coordinate (address : string) : result (option geometry) :=
  geocode_result <- client address ;;
  match geocode_result with
  | JNull => Ok None
  | _ =>
      first <- getitem0 geocode_result ;;
      has_geometry <- contains "geometry" first ;;
      if negb has_geometry then Ok None
      else
        first <- getitem0 geocode_result ;;
        geom <- getitem first "geometry" ;;
        has_location <- contains "location" geom ;;
        if negb has_location then Ok None
        else
          first <- getitem0 geocode_result ;;
          geom <- getitem first "geometry" ;;
          location <- getitem geom "location" ;;
          lng <- getitem location "lng" ;;
          lat <- getitem location "lat" ;;
          x <- coord_of lng ;;
          y <- coord_of lat ;;
          Ok (Some (Point x y))
  end.

(** ** The coordinate resolver *)

(** [sep.join(values)]: every value has to be a string. *)
Fixpoint str_join (sep : string) (values : list cell) : result string :=
  match values with
  | [] => Ok ""
  | [CStr s] => Ok s
  | CStr s :: rest => t <- str_join sep rest ;; Ok (s ++ sep ++ t)
  | _ => Raise TypeError
  end.

Definition nrows (df : DataFrame) : nat :=
  match df with
  | [] => 0%nat
  | (_, c) :: _ => List.length c
  end.

(** Row [i] of a frame, in column order. *)
Definition row_at (df : DataFrame) (i : nat) : list cell :=
  map (fun nc => nth i (snd nc) CNone) df.

Definition frame_rows (df : DataFrame) : list (list cell) :=
  map (row_at df) (seq 0 (nrows df)).

Definition coordinate_cell (o : option geometry) : cell :=
  match o with
  | Some g => CGeom g
  | None => CNone
  end.

(** [get_all_coordinates(df)] assigns two columns to the frame it is given:
    the caller's frame changes with it.  The model returns the frame after
    the call next to the function's result.  The [apply] reads back the
    column of joined strings just assigned.  On a table without rows the
    row-wise [agg] returns a table and not a column, and assigning it to
    FULL_ADDRESS raises ValueError. *)
Definition get_all_coordinates (df : DataFrame) : result (DataFrame * DataFrame) :=
  parts <- project df ["PSS_ADDRESS"; "PSS_CITY"; "PSS_STABB"] ;;
  _ <- (if Nat.eqb (nrows parts) 0 then Raise ValueError else Ok tt) ;;
  full <- mapM (str_join ",") (frame_rows parts) ;;
  let df := setcol df "FULL_ADDRESS" (map CStr full) in
  coords <- mapM get_coordinate full ;;
  let df := setcol df "COORDINATE" (map coordinate_cell coords) in
  out <- project df ["COORDINATE"; "LOGRADE"; "HIGRADE"] ;;
  Ok (df, out).

End Geocoder.

(** ** The district matcher *)

Definition is_null (c : cell) : bool :=
  match c with
  | CNone => true
  | CNum NNaN => true
  | _ => false
  end.

(** The float64 nearest to an integer, ties to even: the integer itself up
    to 2^53 in magnitude. *)
Definition float_of_int (z : Z) : Q :=
  if exact_int z then inject_Z z
  else
    let a := Z.abs z in
    let unit := 2 ^ (Z.log2 a - 52) in
    let q := a / unit in
    let r := a mod unit in
    let rounded :=
      if 2 * r <? unit then q
      else if unit <? 2 * r then q + 1
      else if Z.even q then q else q + 1 in
    inject_Z (Z.sgn z * (rounded * unit)).

(** [x <= y] on numbers; every comparison with NaN is false.  Two
    integers are compared as they are; an integer against a float is
    compared as the float64 it converts to. *)
Definition num_leb (x y : numeric) : bool :=
  match x, y with
  | NNaN, _ | _, NNaN => false
  | NInf true, _ => true
  | _, NInf false => true
  | NInf false, _ => false
  | _, NInf true => false
  | NInt a, NInt b => a <=? b
  | NInt a, NFloat q => Qle_bool (float_of_int a) q
  | NFloat p, NInt b => Qle_bool p (float_of_int b)
  | NFloat p, NFloat q => Qle_bool p q
  end.

(** [a <= b] and [a >= b] on two cells of a comparison of columns: false
    when either is missing, the order of numbers or of strings when both
    are of that kind, a TypeError otherwise (a string against a number, a
    geometry).  The columns compared are read from files and hold no
    lists. *)
Definition cell_le (a b : cell) : result bool :=
  if (is_null a || is_null b)%bool then Ok false
  else
    match a, b with
    | CNum x, CNum y => Ok (num_leb x y)
    | CStr s, CStr t => Ok (String.leb s t)
    | _, _ => Raise TypeError
    end.

Definition cell_ge (a b : cell) : result bool := cell_le b a.

Definition cmp_columns (cmp : cell -> cell -> result bool) (l r : Column)
  : result (list bool) :=
  mapM (fun ab => cmp (fst ab) (snd ab)) (combine l r).

Definition mask_or (m1 m2 : list bool) : list bool :=
  map (fun ab => (fst ab || snd ab)%bool) (combine m1 m2).

(** The rows of a column at the given positions. *)
Definition gather (col : Column) (rows : list nat) : Column :=
  map (fun i => nth i col CNone) rows.

Definition has_column (df : DataFrame) (name : string) : bool :=
  existsb (String.eqb name) (columns df).

Definition drop_column (df : DataFrame) (name : string) : DataFrame :=
  filter (fun nc => negb (String.eqb (fst nc) name)) df.

(** A column name that the other table has too gets the suffix. *)
Definition suffixed (other : DataFrame) (suffix name : string) : string :=
  if has_column other name then name ++ suffix else name.

(** A joined table keeps the row labels of its left table as its index,
    with repetitions. *)
Record Joined : Type := mkJoined {
  jindex : list nat;
  jframe : DataFrame
}.

(** A series indexed by row label, labels ascending. *)
Definition Series : Type := list (nat * cell).

Fixpoint series_get (s : Series) (k : nat) : option cell :=
  match s with
  | [] => None
  | (i, v) :: rest => if Nat.eqb i k then Some v else series_get rest k
  end.

(** The distinct labels of an index, ascending. *)
Definition labels (idx : list nat) : list nat :=
  filter (fun k => existsb (Nat.eqb k) idx) (seq 0 (S (list_max idx))).

(** [groupby(level=0)[...].agg(list)]: one entry per distinct label, in
    ascending label order, holding the values of that label's rows in row
    order. *)
Definition groupby_agg_list (idx : list nat) (values : Column) : Series :=
  map (fun k => (k, CList (select (map (Nat.eqb k) idx) values))) (labels idx).

Section Matcher.

(** The [within] predicate of the geometry library. *)
Variable within : geometry -> geometry -> bool.

(** A missing geometry matches nothing. *)
Definition geom_within (a b : cell) : bool :=
  match a, b with
  | CGeom x, CGeom y => within x y
  | _, _ => false
  end.

(** The pairs (left row, right row) of the join, ordered by left row and
    then by right row. *)
Definition sjoin_pairs (left right : Column) : list (nat * nat) :=
  flat_map
    (fun i =>
       map (pair i)
           (filter (fun j => geom_within (nth i left CNone) (nth j right CNone))
                   (seq 0 (List.length right))))
    (seq 0 (List.length left)).

(** [gpd.sjoin(coords_gdf, districts, predicate="within",
    lsuffix="school", rsuffix="district")].  The left table's geometry is
    its COORDINATE column, the right table's its geometry column, which the
    join drops.  The index_district column holds the position of the
    right row of each pair in the table given (the program has the row's
    label there; nothing reads the column). *)
Definition sjoin (coords_gdf districts : DataFrame) : result Joined :=
  lgeom <- getcol coords_gdf "COORDINATE" ;;
  rgeom <- getcol districts "geometry" ;;
  let pairs := sjoin_pairs lgeom rgeom in
  let right := drop_column districts "geometry" in
  let lcols :=
    map (fun nc => (suffixed right "_school" (fst nc),
                    gather (snd nc) (map fst pairs))) coords_gdf in
  let rcols :=
    map (fun nc => (suffixed coords_gdf "_district" (fst nc),
                    gather (snd nc) (map snd pairs))) right in
  let index_right :=
    map (fun p => CNum (NInt (Z.of_nat (snd p)))) pairs in
  Ok (mkJoined (map fst pairs)
               (lcols ++ [("index_district", index_right)] ++ rcols)%list).

Definition grade_mask (joined_gdf : Joined) : result (list bool) :=
  lo_school <- getcol (jframe joined_gdf) "LOGRADE_school" ;;
  lo_district <- getcol (jframe joined_gdf) "LOGRADE_district" ;;
  m1 <- cmp_columns cell_ge lo_school lo_district ;;
  hi_school <- getcol (jframe joined_gdf) "HIGRADE_school" ;;
  hi_district <- getcol (jframe joined_gdf) "HIGRADE_district" ;;
  m2 <- cmp_columns cell_le hi_school hi_district ;;
  Ok (mask_or m1 m2).

Definition grade_filter (joined_gdf : Joined) : result Joined :=
  mask <- grade_mask joined_gdf ;;
  Ok (mkJoined (select mask (jindex joined_gdf))
               (filter_rows mask (jframe joined_gdf))).

Definition get_districts_for_coordinates (coords_gdf districts : DataFrame)
  : result Series :=
  joined_gdf <- sjoin coords_gdf districts ;;
  grade_filtered_gdf <- grade_filter joined_gdf ;;
  names <- getcol (jframe grade_filtered_gdf) "NAME" ;;
  Ok (groupby_agg_list (jindex grade_filtered_gdf) names).

End Matcher.

(** ** The pipeline driver *)

(** A CSV file as the table it holds: the header and the records.
    [to_csv] writes the row label as an unnamed first field. *)
Record CSV : Type := mkCSV {
  header : list string;
  records : list (list cell)
}.

Definition to_csv (df : DataFrame) : CSV :=
  mkCSV ("" :: columns df)
        (map (fun i => CNum (NInt (Z.of_nat i)) :: row_at df i)
             (seq 0 (nrows df))).

(** The files written, latest first. *)
Definition FileSystem : Type := list (string * CSV).

Definition write_file (fs : FileSystem) (path : string) (f : CSV) : FileSystem :=
  (path, f) :: fs.

(** [df.assign(name=series)] for a series indexed by row label: rows the
    series has no entry for get NaN. *)
Definition align (s : Series) (n : nat) : Column :=
  map (fun i => match series_get s i with
                | Some v => v
                | None => CNum NNaN
                end) (seq 0 n).

Section Driver.

Variable client : string -> result json.
Variable coord_of : json -> result Q.
Variable within : geometry -> geometry -> bool.

(** The function returns nothing; what it leaves behind is the files
    written, also when a later step raises.  Its two progress messages on
    standard output are left out. *)
Definition get_districts_for_schools
    (schools_df districts_gdf : DataFrame) (coords_path districts_path : string)
    (fs : FileSystem) : FileSystem * result unit :=
  match get_all_coordinates client coord_of schools_df with
  | Raise e => (fs, Raise e)
  | Ok (schools_df, coordinates) =>
      match getcol coordinates "COORDINATE" with
      | Raise e => (fs, Raise e)
      | Ok coordinate =>
          let schools_with_coords := setcol schools_df "COORDINATE" coordinate in
          let fs := write_file fs coords_path (to_csv schools_with_coords) in
          match get_districts_for_coordinates within coordinates districts_gdf with
          | Raise e => (fs, Raise e)
          | Ok districts =>
              let schools_with_districts :=
                setcol schools_with_coords "DISTRICTS"
                       (align districts (nrows schools_with_coords)) in
              (write_file fs districts_path (to_csv schools_with_districts),
               Ok tt)
          end
      end
  end.

End Driver.

(** ** The script

    The statements under [if __name__ == "__main__"], with
    [create_gmaps_client].  Reading the two input files, the process
    environment and the constructor of the provider's client are
    parameters. *)

(** The ASCII upper case of a character and of a string. *)
Definition upper (c : ascii) : ascii :=
  let n := nat_of_ascii c in
  if (Nat.leb 97 n && Nat.leb n 122)%bool then ascii_of_nat (n - 32) else c.

Definition str_upper (s : string) : string :=
  string_of_list_ascii (map upper (list_ascii_of_string s)).

Definition is_ascii_string (s : string) : bool :=
  forallb (fun c => Nat.ltb (nat_of_ascii c) 128) (list_ascii_of_string s).

(** [str.upper]: the ASCII upper case of a string of ASCII characters;
    what it makes of another string (strings are byte sequences here) is
    left to [unicode_upper]. *)
Definition py_upper (unicode_upper : string -> string) (s : string) : string :=
  if is_ascii_string s then str_upper s else unicode_upper s.

(** [df.rename(columns=f)] *)
Definition rename_columns (f : string -> string) (df : DataFrame) : DataFrame :=
  map (fun nc => (f (fst nc), snd nc)) df.

(** [Path(a) / Path(b)] for relative paths. *)
Definition path_join (a b : string) : string := a ++ "/" ++ b.

Definition DATA_DIR : string := "data".
Definition DISTRICT_SHAPEFILE_PATH : string :=
  path_join DATA_DIR "us_school_districts/EDGE_SCHOOLDISTRICT_TL_23_SY2223.shp".
Definition SCHOOLS_PATH : string := path_join DATA_DIR "school_data.csv".
Definition COORDS_PATH : string := path_join DATA_DIR "schools_with_coords.csv".
Definition DISTRICTS_PATH : string := path_join DATA_DIR "schools_with_districts.csv".

Fixpoint environ_get (environ : list (string * string)) (name : string)
  : option string :=
  match environ with
  | [] => None
  | (k, v) :: rest => if String.eqb k name then Some v else environ_get rest name
  end.

Section Script.

Variable float_value : string -> numeric.
Variable coord_of : json -> result Q.
Variable within : geometry -> geometry -> bool.

(** [pd.read_csv] and [gpd.read_file]: the table a path holds, or the
    exception of the reader. *)
Variable read_csv : string -> result DataFrame.
Variable gpd_read_file : string -> result DataFrame.

(** [str.upper] outside ASCII. *)
Variable unicode_upper : string -> string.

(** [os.environ] and [googlemaps.Client(key=...)]. *)
Variable environ : list (string * string).
Variable Client : option string -> result (string -> result json).

Definition create_gmaps_client : result (string -> result json) :=
  let api_key := environ_get environ "GOOGLE_MAPS_API_KEY" in
  Client api_key.

(** The client is created by the first statement of
    [get_all_coordinates], which the driver calls before anything else;
    here it is created just before the driver runs. *)
Definition main (fs : FileSystem) : FileSystem * result unit :=
  match read_csv SCHOOLS_PATH with
  | Raise e => (fs, Raise e)
  | Ok table =>
      let schools_df := rename_columns (py_upper unicode_upper) table in
      match (gdf <- gpd_read_file DISTRICT_SHAPEFILE_PATH ;;
             read_shapefile float_value gdf "04") with
      | Raise e => (fs, Raise e)
      | Ok districts_gdf =>
          match create_gmaps_client with
          | Raise e => (fs, Raise e)
          | Ok client =>
              get_districts_for_schools client coord_of within
                schools_df districts_gdf COORDS_PATH DISTRICTS_PATH fs
          end
      end
  end.

End Script.

(** ** Views used to state the properties *)

Definition int_cell (z : Z) : cell := CNum (NInt z).

(** The two table shapes the program hands to the matcher: what
    [get_all_coordinates] returns and what [read_shapefile] returns. *)
Definition coords_frame (points lo hi : Column) : DataFrame :=
  [("COORDINATE", points); ("LOGRADE", lo); ("HIGRADE", hi)].

Definition districts_frame (names geoms lo hi : Column) : DataFrame :=
  [("NAME", names); ("geometry", geoms); ("LOGRADE", lo); ("HIGRADE", hi)].

(** A record of the polygon dataset, for the columns the loader reads. *)
Record district_record : Type := mkDistrict {
  r_statefp : cell;
  r_name : cell;
  r_geometry : cell;
  r_lograde : cell;
  r_higrade : cell
}.

(** The table [gdf] holds the records [recs], row by row. *)
Definition holds_districts (gdf : DataFrame) (recs : list district_record) : Prop :=
  getcol gdf "STATEFP" = Ok (map r_statefp recs) /\
  getcol gdf "NAME" = Ok (map r_name recs) /\
  getcol gdf "geometry" = Ok (map r_geometry recs) /\
  getcol gdf "LOGRADE" = Ok (map r_lograde recs) /\
  getcol gdf "HIGRADE" = Ok (map r_higrade recs).

(** A school row, for the columns the resolver reads. *)
Record school_record : Type := mkSchool {
  s_address : string;
  s_city : string;
  s_stabb : string
}.

Definition full_address (r : school_record) : string :=
  s_address r ++ "," ++ s_city r ++ "," ++ s_stabb r.

Definition holds_schools (df : DataFrame) (rows : list school_record) : Prop :=
  getcol df "PSS_ADDRESS" = Ok (map (fun r => CStr (s_address r)) rows) /\
  getcol df "PSS_CITY" = Ok (map (fun r => CStr (s_city r)) rows) /\
  getcol df "PSS_STABB" = Ok (map (fun r => CStr (s_stabb r)) rows).

(** The integer a grade cell is coerced to when the cast does not raise. *)
Definition grade_of (float_value : string -> numeric) (c : cell) : Z :=
  match coerce_grade float_value c with
  | Ok z => z
  | Raise _ => 0
  end.

(** The cast raises on an infinity only: NaN has been filled by then. *)
Definition castable (float_value : string -> numeric) (c : cell) : bool :=
  match to_numeric float_value c with
  | NInf _ => false
  | _ => true
  end.

Definition is_negative (n : numeric) : bool :=
  match n with
  | NInt z => z <? 0
  | NFloat q => Qnum q <? 0
  | NInf negative => negative
  | NNaN => false
  end.

(** A grade cell that is a number or missing. *)
Definition number_or_missing (c : cell) : bool :=
  match c with
  | CNum _ | CNone => true
  | _ => false
  end.

(** The row of the district table a joined row came from, as the
    index_district column spells it. *)
Definition district_label (j : nat) : cell := int_cell (Z.of_nat j).

(** [a <= b] as a truth value, for cells whose comparison does not raise. *)
Definition cell_leb (a b : cell) : bool :=
  match cell_le a b with
  | Ok r => r
  | Raise _ => false
  end.

(** The grade filter on the pair (school row, district row): the school's
    low grade is at least the district's, or the school's high grade is at
    most the district's. *)
Definition passes_grade_filter (slo shi dlo dhi : Column) (p : nat * nat) : bool :=
  (cell_leb (nth (snd p) dlo CNone) (nth (fst p) slo CNone)
   || cell_leb (nth (fst p) shi CNone) (nth (snd p) dhi CNone))%bool.

(** The joined table of the two shapes above, for given pairs of rows. *)
Definition joined_of (points slo shi names dlo dhi : Column)
    (pairs : list (nat * nat)) : Joined :=
  mkJoined (map fst pairs)
    [("COORDINATE", map (fun p => nth (fst p) points CNone) pairs);
     ("LOGRADE_school", map (fun p => nth (fst p) slo CNone) pairs);
     ("HIGRADE_school", map (fun p => nth (fst p) shi CNone) pairs);
     ("index_district", map (fun p => district_label (snd p)) pairs);
     ("NAME", map (fun p => nth (snd p) names CNone) pairs);
     ("LOGRADE_district", map (fun p => nth (snd p) dlo CNone) pairs);
     ("HIGRADE_district", map (fun p => nth (snd p) dhi CNone) pairs)].

(** The district rows that qualify for school row [i]: the polygon
    contains the point and the pair passes the grade filter. *)
Definition qualifying (within : geometry -> geometry -> bool)
    (points slo shi geoms dlo dhi : Column) (i : nat) : list nat :=
  filter (fun j => (geom_within within (nth i points CNone) (nth j geoms CNone)
                    && passes_grade_filter slo shi dlo dhi (i, j))%bool)
         (seq 0 (List.length geoms)).

(** The name to add to a header by [df[name] = ...]. *)
Definition with_column (cols : list string) (name : string) : list string :=
  if existsb (String.eqb name) cols then cols else (cols ++ [name])%list.

(** The pairs the matcher keeps, and the series it makes of them, for
    grade cells whose comparison does not raise. *)
Definition kept_pairs_of (within : geometry -> geometry -> bool)
    (points slo shi geoms dlo dhi : Column) : list (nat * nat) :=
  filter (passes_grade_filter slo shi dlo dhi) (sjoin_pairs within points geoms).

Definition matched_series (within : geometry -> geometry -> bool)
    (points slo shi names geoms dlo dhi : Column) : Series :=
  let kept := kept_pairs_of within points slo shi geoms dlo dhi in
  groupby_agg_list (map fst kept) (map (fun p => nth (snd p) names CNone) kept).

(** Every column of the frame has [n] rows. *)
Definition well_formed (df : DataFrame) (n : nat) : Prop :=
  Forall (fun nc => List.length (snd nc) = n) df.

Definition is_str (c : cell) : bool :=
  match c with
  | CStr _ => true
  | _ => false
  end.

(** The district-list cell of school row [i] in the second file: the names
    of the qualifying districts, NaN when there is none. *)
Definition districts_cell (within : geometry -> geometry -> bool)
    (points slo shi names geoms dlo dhi : Column) (i : nat) : cell :=
  match qualifying within points slo shi geoms dlo dhi i with
  | [] => CNum NNaN
  | js => CList (map (fun j => nth j names CNone) js)
  end.

(** What a grade cell reads as when that does not depend on the float
    parser: a number is itself, a missing value and a text outside the
    number grammar are NaN, an integer literal of at most 2^53 in magnitude
    is that integer, a spelled infinity is an infinity.  Float literals and
    larger integer literals have no such reading. *)
Definition plain_reading (c : cell) : option numeric :=
  match c with
  | CNum n => Some n
  | CStr s =>
      match scan s with
      | IntLit z => if exact_int z then Some (NInt z) else None
      | FloatLit => None
      | InfLit negative => Some (NInf negative)
      | NoParse => Some NNaN
      end
  | _ => Some NNaN
  end.


(** The number is cast to an int64 without loss of magnitude. *)
Definition fits_int64 (n : numeric) : bool :=
  match n with
  | NInt z => in_int64 z
  | NFloat q => in_int64 (truncate q)
  | NInf _ => false
  | NNaN => true
  end.

(** What the loader leaves in a grade field, given the cell it read: an
    int64; 0 when the cell does not parse as a number; the integer read,
    or the float read truncated towards zero, when that fits an int64;
    hence no negative number when the number read is not negative and
    fits. *)
Definition coerced_bound (float_value : string -> numeric) (src : cell) (z : Z) : Prop :=
  in_int64 z = true /\
  (to_numeric float_value src = NNaN -> z = 0) /\
  (forall a, plain_reading src = Some (NInt a) -> in_int64 a = true -> z = a) /\
  (forall q, plain_reading src = Some (NFloat q) ->
             in_int64 (truncate q) = true -> z = truncate q) /\
  (forall n, plain_reading src = Some n -> is_negative n = false ->
             fits_int64 n = true -> 0 <= z).

(** ** Sample inputs

    Small concrete tables and library parameters on which the statements
    below are exercised. *)
Module Sample.

(** A float parser that rejects every literal. *)
Definition no_floats (s : string) : numeric := NNaN.

(** The rectangle with the given lower-left and upper-right corners, as
    its closed ring. *)
Definition box (x0 y0 x1 y1 : Z) : geometry :=
  Polygon [(inject_Z x0, inject_Z y0); (inject_Z x1, inject_Z y0);
           (inject_Z x1, inject_Z y1); (inject_Z x0, inject_Z y1);
           (inject_Z x0, inject_Z y0)].

Definition Qlt_bool (a b : Q) : bool := negb (Qle_bool b a).

(** A point lies within such a rectangle when it is in its interior. *)
Definition in_box (a b : geometry) : bool :=
  match a, b with
  | Point x y, Polygon [(x0, y0); _; (x1, y1); _; _] =>
      (Qlt_bool x0 x && Qlt_bool x x1 && Qlt_bool y0 y && Qlt_bool y y1)%bool
  | _, _ => false
  end.

Definition polygon_records : list district_record :=
  [mkDistrict (CStr "04") (CStr "Mesa Unified") (CGeom (box 0 0 2 2)) (CStr "PK") (CStr "12");
   mkDistrict (CStr "06") (CStr "Needles Unified") (CGeom (box 5 5 6 6)) (CStr "09") (CStr "12");
   mkDistrict (CStr "04") (CStr "Mesa Elementary") (CGeom (box 0 0 3 3)) (CStr "-2") (CStr "08")].

Definition polygons : DataFrame :=
  [("STATEFP", map r_statefp polygon_records);
   ("NAME", map r_name polygon_records);
   ("LOGRADE", map r_lograde polygon_records);
   ("HIGRADE", map r_higrade polygon_records);
   ("ALAND", [int_cell 10; int_cell 20; int_cell 30]);
   ("geometry", map r_geometry polygon_records)].

Definition arizona : DataFrame :=
  districts_frame
    [CStr "Mesa Unified"; CStr "Mesa Elementary"]
    [CGeom (box 0 0 2 2); CGeom (box 0 0 3 3)]
    [int_cell 0; int_cell (-2)]
    [int_cell 12; int_cell 8].

Definition located (x y : Z) : json :=
  JList [JDict [("geometry",
                 JDict [("location",
                         JDict [("lat", JNum (inject_Z y));
                                ("lng", JNum (inject_Z x))])])]].

(** A provider that knows two addresses, answers a third with a result
    that has no geometry, and has no result for any other. *)
Definition provider (address : string) : result json :=
  if String.eqb address "1 Main St,Mesa,AZ" then Ok (located 1 1)
  else if String.eqb address "2 Oak St,Yuma,AZ"
       then Ok (JList [JDict [("partial_match", JBool true)]])
  else if String.eqb address "3 Elm St,Ajo,AZ" then Ok (located 9 9)
  else Ok (JList []).

(** A provider that finds nothing, whatever the address. *)
Definition no_results (address : string) : result json := Ok (JList []).

Definition number_coord (j : json) : result Q :=
  match j with
  | JNum q => Ok q
  | _ => Raise TypeError
  end.

Definition school_rows : list school_record :=
  [mkSchool "1 Main St" "Mesa" "AZ";
   mkSchool "2 Oak St" "Yuma" "AZ";
   mkSchool "3 Elm St" "Ajo" "AZ"].

Definition schools_with (lo hi : Column) : DataFrame :=
  [("PSS_ADDRESS", map (fun r => CStr (s_address r)) school_rows);
   ("PSS_CITY", map (fun r => CStr (s_city r)) school_rows);
   ("PSS_STABB", map (fun r => CStr (s_stabb r)) school_rows);
   ("LOGRADE", lo);
   ("HIGRADE", hi)].

Definition schools : DataFrame :=
  schools_with [int_cell 0; int_cell 9; int_cell 1]
               [int_cell 5; int_cell 12; int_cell 8].

(** The same schools, the first with a low grade that is no number: the
    CSV reader then keeps the whole column as text. *)
Definition schools_K : DataFrame :=
  schools_with [CStr "K"; CStr "9"; CStr "1"]
               [int_cell 5; int_cell 12; int_cell 8].

(** A school table whose last address the provider does not find. *)
Definition school_rows_unfound : list school_record :=
  [mkSchool "1 Main St" "Mesa" "AZ";
   mkSchool "7 Lost Rd" "Nowhere" "AZ"].

Definition schools_unfound : DataFrame :=
  [("PSS_ADDRESS", map (fun r => CStr (s_address r)) school_rows_unfound);
   ("PSS_CITY", map (fun r => CStr (s_city r)) school_rows_unfound);
   ("PSS_STABB", map (fun r => CStr (s_stabb r)) school_rows_unfound);
   ("LOGRADE", [int_cell 0; int_cell 9]);
   ("HIGRADE", [int_cell 5; int_cell 12])].


(** A school table with a blank city in its second row. *)
Definition schools_blank_city : DataFrame :=
  [("PSS_ADDRESS", [CStr "1 Main St"; CStr "2 Oak St"]);
   ("PSS_CITY", [CStr "Mesa"; CNum NNaN]);
   ("PSS_STABB", [CStr "AZ"; CStr "AZ"]);
   ("LOGRADE", [int_cell 0; int_cell 9]);
   ("HIGRADE", [int_cell 5; int_cell 12])].

(** A polygon dataset with an infinite high grade in the region. *)
Definition polygon_records_inf : list district_record :=
  [mkDistrict (CStr "04") (CStr "Mesa Unified") (CGeom (box 0 0 2 2)) (CStr "PK") (CStr "12");
   mkDistrict (CStr "04") (CStr "Mesa Elementary") (CGeom (box 0 0 3 3)) (CStr "01") (CStr "inf")].

Definition polygons_inf : DataFrame :=
  [("STATEFP", map r_statefp polygon_records_inf);
   ("NAME", map r_name polygon_records_inf);
   ("geometry", map r_geometry polygon_records_inf);
   ("LOGRADE", map r_lograde polygon_records_inf);
   ("HIGRADE", map r_higrade polygon_records_inf)].

(** The school table as the CSV names its columns, in lower case. *)
Definition schools_csv : DataFrame :=
  [("pss_address", map (fun r => CStr (s_address r)) school_rows);
   ("pss_city", map (fun r => CStr (s_city r)) school_rows);
   ("pss_stabb", map (fun r => CStr (s_stabb r)) school_rows);
   ("lograde", [int_cell 0; int_cell 9; int_cell 1]);
   ("higrade", [int_cell 5; int_cell 12; int_cell 8])].

Definition csv_reader (path : string) : result DataFrame :=
  if String.eqb path "data/school_data.csv" then Ok schools_csv
  else Raise (KeyError path).

Definition shapefile_reader (path : string) : result DataFrame :=
  if String.eqb path "data/us_school_districts/EDGE_SCHOOLDISTRICT_TL_23_SY2223.shp"
  then Ok polygons
  else Raise (KeyError path).

Definition environment : list (string * string) :=
  [("HOME", "/root"); ("GOOGLE_MAPS_API_KEY", "AIza-sample")].

(** A constructor that wants a key. *)
Definition make_client (key : option string) : result (string -> result json) :=
  match key with
  | Some _ => Ok provider
  | None => Raise ProviderError
  end.

End Sample.

(** ** Lemmas on the monad and on lists *)

Lemma bind_Ok_inv {A B : Type} (m : result A) (k : A -> result B) (b : B) :
  bind m k = Ok b -> exists a, m = Ok a /\ k a = Ok b.
Proof.
  destruct m as [a|e]; simpl; intros H.
  - exists a; split; [reflexivity | exact H].
  - discriminate.
Qed.

Lemma mapM_map {A B : Type} (f : A -> result B) (g : A -> B) (l : list A) :
  Forall (fun x => f x = Ok (g x)) l -> mapM f l = Ok (map g l).
Proof.
  induction 1 as [|x xs Hx _ IH]; simpl.
  - reflexivity.
  - rewrite Hx; simpl. rewrite IH; reflexivity.
Qed.

Lemma mapM_Forall2 {A B : Type} (f : A -> result B) (l : list A) (r : list B) :
  mapM f l = Ok r <-> Forall2 (fun x y => f x = Ok y) l r.
Proof.
  revert r; induction l as [|x xs IH]; intros r; simpl.
  - split.
    + intros H; injection H as <-; constructor.
    + intros H; inversion H; reflexivity.
  - split.
    + intros H.
      apply bind_Ok_inv in H as (y & Hy & H).
      apply bind_Ok_inv in H as (ys & Hys & H).
      injection H as <-. constructor; [exact Hy | apply IH; exact Hys].
    + intros H; inversion H as [|x' y xs' ys Hy Hys]; subst.
      rewrite Hy; simpl. apply IH in Hys. rewrite Hys; reflexivity.
Qed.


Lemma select_map_filter {A B : Type} (f : A -> bool) (g : A -> B) (l : list A) :
  select (map f l) (map g l) = map g (filter f l).
Proof.
  induction l as [|x xs IH]; simpl; [reflexivity|].
  destruct (f x); simpl; rewrite IH; reflexivity.
Qed.

Lemma select_incl {A : Type} (mask : list bool) (l : list A) (x : A) :
  In x (select mask l) -> In x l.
Proof.
  revert l; induction mask as [|b mask IH]; intros [|y l]; simpl; try tauto.
  destruct b; simpl; intros H.
  - destruct H as [H|H]; [left; exact H | right; apply IH; exact H].
  - right; apply IH; exact H.
Qed.

(** ** Lemmas on frames *)

Lemma getcol_setcol_same (df : DataFrame) (n : string) (v : Column) :
  getcol (setcol df n v) n = Ok v.
Proof.
  induction df as [|[m c] rest IH]; simpl.
  - rewrite String.eqb_refl; reflexivity.
  - destruct (String.eqb m n) eqn:E; simpl; rewrite ?E.
    + reflexivity.
    + exact IH.
Qed.

Lemma getcol_setcol_other (df : DataFrame) (n m : string) (v : Column) :
  n <> m -> getcol (setcol df n v) m = getcol df m.
Proof.
  intros Hnm. induction df as [|[k c] rest IH]; simpl.
  - apply String.eqb_neq in Hnm. rewrite Hnm; reflexivity.
  - destruct (String.eqb k n) eqn:E; simpl.
    + apply String.eqb_eq in E; subst k.
      apply String.eqb_neq in Hnm. rewrite Hnm; reflexivity.
    + destruct (String.eqb k m); [reflexivity | exact IH].
Qed.

Lemma getcol_filter_rows (mask : list bool) (df : DataFrame) (n : string) :
  getcol (filter_rows mask df) n = (c <- getcol df n ;; Ok (select mask c)).
Proof.
  induction df as [|[m c] rest IH]; simpl.
  - reflexivity.
  - destruct (String.eqb m n); [reflexivity | exact IH].
Qed.

Lemma columns_setcol (df : DataFrame) (n : string) (v : Column) :
  columns (setcol df n v) = with_column (columns df) n.
Proof.
  unfold with_column, columns.
  induction df as [|[m c] rest IH]; simpl.
  - reflexivity.
  - rewrite (String.eqb_sym n m).
    destruct (String.eqb m n) eqn:E; simpl.
    + reflexivity.
    + rewrite IH. destruct (existsb (String.eqb n) (map fst rest)); reflexivity.
Qed.

(** ** The shapefile loader *)

Lemma wrap_int64_in (z : Z) : in_int64 (wrap_int64 z) = true.
Proof.
  unfold in_int64, wrap_int64.
  assert (H64 : 2 ^ 64 = 2 * 2 ^ 63) by reflexivity.
  assert (Hpos : 0 < 2 ^ 63) by reflexivity.
  pose proof (Z.mod_pos_bound (z + 2 ^ 63) (2 ^ 64)) as Hb.
  rewrite H64 in *. generalize dependent (2 ^ 63). intros m _ Hpos Hb.
  apply andb_true_intro. split; [apply Z.leb_le | apply Z.ltb_lt]; lia.
Qed.

Lemma wrap_int64_id (z : Z) : in_int64 z = true -> wrap_int64 z = z.
Proof.
  unfold in_int64, wrap_int64. intros H.
  apply andb_prop in H as [Hlo Hhi].
  apply Z.leb_le in Hlo. apply Z.ltb_lt in Hhi.
  assert (H64 : 2 ^ 64 = 2 * 2 ^ 63) by reflexivity.
  rewrite H64. rewrite Z.mod_small; lia.
Qed.

Lemma float_to_int64_in (q : Q) : in_int64 (float_to_int64 q) = true.
Proof.
  unfold float_to_int64. destruct (in_int64 (truncate q)) eqn:E.
  - exact E.
  - reflexivity.
Qed.

Section LoaderFacts.

Variable float_value : string -> numeric.

Lemma coerce_grade_castable (c : cell) :
  castable float_value c = true ->
  coerce_grade float_value c = Ok (grade_of float_value c).
Proof.
  unfold castable, grade_of, coerce_grade.
  destruct (to_numeric float_value c); simpl; intros H;
    [reflexivity | reflexivity | discriminate | reflexivity].
Qed.

Lemma plain_reading_to_numeric (c : cell) (n : numeric) :
  plain_reading c = Some n -> to_numeric float_value c = n.
Proof.
  destruct c as [m| |s| |]; simpl; try (intros H; injection H as <-; reflexivity).
  destruct (scan s) as [z| |b|].
  - destruct (exact_int z); [|discriminate].
    intros H; injection H as <-; reflexivity.
  - discriminate.
  - intros H; injection H as <-; reflexivity.
  - intros H; injection H as <-; reflexivity.
Qed.

Lemma coerce_grade_bound (c : cell) (z : Z) :
  coerce_grade float_value c = Ok z -> coerced_bound float_value c z.
Proof.
  unfold coerce_grade, coerced_bound. intros H.
  assert (Hin : in_int64 z = true).
  { destruct (fillna0 (to_numeric float_value c)) as [a|q|b|];
      simpl in H; try discriminate; injection H as <-.
    - apply wrap_int64_in.
    - apply float_to_int64_in. }
  split; [exact Hin|]. split; [|split; [|split]].
  - intros E. rewrite E in H. simpl in H. injection H as <-. reflexivity.
  - intros a Hp Ha. rewrite (plain_reading_to_numeric c _ Hp) in H.
    simpl in H. injection H as <-. apply wrap_int64_id. exact Ha.
  - intros q Hp Hq. rewrite (plain_reading_to_numeric c _ Hp) in H.
    simpl in H. injection H as <-. unfold float_to_int64. rewrite Hq. reflexivity.
  - intros n Hp Hneg Hfit. rewrite (plain_reading_to_numeric c _ Hp) in H.
    destruct n as [a|q|b|]; simpl in H, Hneg, Hfit; try discriminate;
      injection H as <-.
    + rewrite (wrap_int64_id a Hfit). apply Z.ltb_ge. exact Hneg.
    + unfold float_to_int64. rewrite Hfit. unfold truncate.
      apply Z.quot_pos; [apply Z.ltb_ge; exact Hneg | lia].
    + reflexivity.
Qed.

Lemma coerce_column_castable {A : Type} (f : A -> cell) (l : list A) :
  Forall (fun x => castable float_value (f x) = true) l ->
  coerce_column float_value (map f l)
  = Ok (map (fun x => int_cell (grade_of float_value (f x))) l).
Proof.
  intros H. unfold coerce_column.
  rewrite (mapM_map _ (grade_of float_value)).
  - simpl. rewrite !map_map. reflexivity.
  - apply Forall_map. revert H. apply Forall_impl.
    intros x Hx. apply coerce_grade_castable; exact Hx.
Qed.

Lemma coerce_column_inv (col out : Column) :
  coerce_column float_value col = Ok out ->
  exists zs, out = map int_cell zs /\
             Forall2 (coerced_bound float_value) col zs.
Proof.
  unfold coerce_column. intros H.
  apply bind_Ok_inv in H as (zs & Hzs & H). injection H as <-.
  exists zs. split; [reflexivity|].
  apply mapM_Forall2 in Hzs. revert Hzs. apply Forall2_impl.
  intros c z. apply coerce_grade_bound.
Qed.

(** What a successful load read and what it returns. *)
Lemma read_shapefile_inv (gdf : DataFrame) (state_fip : string) (d : DataFrame) :
  read_shapefile float_value gdf state_fip = Ok d ->
  exists statefp names geoms lo hi zlo zhi,
    getcol gdf "STATEFP" = Ok statefp /\
    getcol gdf "NAME" = Ok names /\
    getcol gdf "geometry" = Ok geoms /\
    getcol gdf "LOGRADE" = Ok lo /\
    getcol gdf "HIGRADE" = Ok hi /\
    let mask := map (fun c => cell_eq_str c state_fip) statefp in
    Forall2 (coerced_bound float_value) (select mask lo) zlo /\
    Forall2 (coerced_bound float_value) (select mask hi) zhi /\
    d = districts_frame (select mask names) (select mask geoms)
                        (map int_cell zlo) (map int_cell zhi).
Proof.
  unfold read_shapefile. intros H.
  apply bind_Ok_inv in H as (statefp & Hst & H).
  set (mask := map (fun c => cell_eq_str c state_fip) statefp) in *.
  apply bind_Ok_inv in H as (lo1 & Hlo & H).
  apply bind_Ok_inv in H as (lo' & Hlo' & H).
  apply bind_Ok_inv in H as (hi1 & Hhi & H).
  apply bind_Ok_inv in H as (hi' & Hhi' & H).
  rewrite getcol_setcol_other in Hhi by discriminate.
  rewrite getcol_filter_rows in Hlo, Hhi.
  apply bind_Ok_inv in Hlo as (lo & Hlo0 & Hlo). injection Hlo as <-.
  apply bind_Ok_inv in Hhi as (hi & Hhi0 & Hhi). injection Hhi as <-.
  apply coerce_column_inv in Hlo' as (zlo & -> & Hzlo).
  apply coerce_column_inv in Hhi' as (zhi & -> & Hzhi).
  unfold project in H. simpl in H.
  rewrite !getcol_setcol_same in H.
  rewrite !(getcol_setcol_other _ "HIGRADE") in H by discriminate.
  rewrite !getcol_setcol_same in H.
  rewrite !(getcol_setcol_other _ "LOGRADE") in H by discriminate.
  rewrite !getcol_filter_rows in H.
  destruct (getcol gdf "NAME") as [names|e] eqn:Hn; simpl in H; [|discriminate].
  destruct (getcol gdf "geometry") as [geoms|e] eqn:Hg; simpl in H; [|discriminate].
  injection H as <-.
  exists statefp, names, geoms, lo, hi, zlo, zhi.
  repeat split; assumption.
Qed.

(** A dataset that holds its records loads, unless a grade of the region
    is infinite. *)
Lemma read_shapefile_holds (gdf : DataFrame) (state_fip : string)
    (recs : list district_record) :
  holds_districts gdf recs ->
  let kept := filter (fun r => cell_eq_str (r_statefp r) state_fip) recs in
  Forall (fun r => castable float_value (r_lograde r) = true) kept ->
  Forall (fun r => castable float_value (r_higrade r) = true) kept ->
  read_shapefile float_value gdf state_fip
  = Ok (districts_frame
          (map r_name kept) (map r_geometry kept)
          (map (fun r => int_cell (grade_of float_value (r_lograde r))) kept)
          (map (fun r => int_cell (grade_of float_value (r_higrade r))) kept)).
Proof.
  intros (Hst & Hn & Hg & Hlo & Hhi) kept Clo Chi.
  unfold read_shapefile. rewrite Hst; simpl. rewrite map_map.
  rewrite getcol_filter_rows, Hlo; simpl.
  rewrite select_map_filter. fold kept.
  rewrite (coerce_column_castable r_lograde kept Clo); simpl.
  rewrite getcol_setcol_other by discriminate.
  rewrite getcol_filter_rows, Hhi; simpl.
  rewrite select_map_filter. fold kept.
  rewrite (coerce_column_castable r_higrade kept Chi); simpl.
  unfold project; simpl.
  rewrite !getcol_setcol_same.
  rewrite !(getcol_setcol_other _ "HIGRADE") by discriminate.
  rewrite !getcol_setcol_same.
  rewrite !(getcol_setcol_other _ "LOGRADE") by discriminate.
  rewrite !getcol_filter_rows, Hn, Hg; simpl.
  rewrite !select_map_filter. reflexivity.
Qed.

End LoaderFacts.






(** ** The geocoder adapter and the coordinate resolver *)

Lemma mapM_compose {A B C : Type} (f : B -> result C) (g : A -> B) (l : list A) :
  mapM f (map g l) = mapM (fun x => f (g x)) l.
Proof.
  induction l as [|x xs IH]; simpl; [reflexivity|]. rewrite IH; reflexivity.
Qed.

(** The rows of a table whose columns are fields of a list of records. *)
Lemma frame_rows_of_records {A : Type}
    (n : string) (f : A -> cell) (fields : list (string * (A -> cell)))
    (recs : list A) :
  frame_rows (map (fun nf => (fst nf, map (snd nf) recs)) ((n, f) :: fields))
  = map (fun r => map (fun nf => snd nf r) ((n, f) :: fields)) recs.
Proof.
  unfold frame_rows. cbn [map nrows fst snd]. rewrite length_map.
  induction recs as [|r rs IH].
  - reflexivity.
  - cbn [List.length seq map]. f_equal.
    + unfold row_at. cbn [map fst snd nth]. f_equal.
      rewrite map_map. reflexivity.
    + rewrite <- seq_shift, map_map. rewrite <- IH.
      apply map_ext. intros i. unfold row_at. cbn [map fst snd nth]. f_equal.
      rewrite !map_map. reflexivity.
Qed.

Section GeocoderFacts.

Variable client : string -> result json.
Variable coord_of : json -> result Q.

Lemma get_coordinate_null (address : string) :
  client address = Ok JNull ->
  get_coordinate client coord_of address = Ok None.
Proof. intros H. unfold get_coordinate. rewrite H. reflexivity. Qed.

(** A first result without a geometry field gives no result. *)
Lemma get_coordinate_no_geometry (address : string)
    (first : list (string * json)) (others : list json) :
  client address = Ok (JList (JDict first :: others)) ->
  dict_get first "geometry" = None ->
  get_coordinate client coord_of address = Ok None.
Proof.
  intros H Hg. unfold get_coordinate. rewrite H. simpl. rewrite Hg. reflexivity.
Qed.

(** A geometry without a location field gives no result. *)
Lemma get_coordinate_no_location (address : string)
    (first geom : list (string * json)) (others : list json) :
  client address = Ok (JList (JDict first :: others)) ->
  dict_get first "geometry" = Some (JDict geom) ->
  dict_get geom "location" = None ->
  get_coordinate client coord_of address = Ok None.
Proof.
  intros H Hg Hl. unfold get_coordinate. rewrite H. simpl.
  rewrite Hg. simpl. rewrite Hl. reflexivity.
Qed.

(** What a successful resolution read and what it returns. *)
Lemma get_all_coordinates_inv (df df' out : DataFrame) :
  get_all_coordinates client coord_of df = Ok (df', out) ->
  exists full coords lo hi,
    Forall2 (fun a c => get_coordinate client coord_of a = Ok c) full coords /\
    getcol df "LOGRADE" = Ok lo /\
    getcol df "HIGRADE" = Ok hi /\
    df' = setcol (setcol df "FULL_ADDRESS" (map CStr full))
                 "COORDINATE" (map coordinate_cell coords) /\
    out = coords_frame (map coordinate_cell coords) lo hi.
Proof.
  unfold get_all_coordinates. intros H.
  apply bind_Ok_inv in H as (parts & _ & H).
  apply bind_Ok_inv in H as (u & _ & H).
  apply bind_Ok_inv in H as (full & _ & H).
  apply bind_Ok_inv in H as (coords & Hc & H).
  apply bind_Ok_inv in H as (out' & Hout & H).
  injection H as <- <-.
  unfold project in Hout. simpl in Hout.
  rewrite getcol_setcol_same in Hout. simpl in Hout.
  rewrite !(getcol_setcol_other _ "COORDINATE") in Hout by discriminate.
  rewrite !(getcol_setcol_other _ "FULL_ADDRESS") in Hout by discriminate.
  destruct (getcol df "LOGRADE") as [lo|e] eqn:Hlo; simpl in Hout; [|discriminate].
  destruct (getcol df "HIGRADE") as [hi|e] eqn:Hhi; simpl in Hout; [|discriminate].
  injection Hout as <-.
  exists full, coords, lo, hi.
  apply mapM_Forall2 in Hc. repeat split; assumption.
Qed.

(** A school table that holds its rows resolves, when the geocoder raises
    on none of the composite addresses. *)
Lemma get_all_coordinates_holds (df : DataFrame) (rows : list school_record)
    (lo hi : Column) (coords : list (option geometry)) :
  rows <> [] ->
  holds_schools df rows ->
  getcol df "LOGRADE" = Ok lo ->
  getcol df "HIGRADE" = Ok hi ->
  Forall2 (fun r c => get_coordinate client coord_of (full_address r) = Ok c)
          rows coords ->
  get_all_coordinates client coord_of df
  = Ok (setcol (setcol df "FULL_ADDRESS" (map (fun r => CStr (full_address r)) rows))
               "COORDINATE" (map coordinate_cell coords),
        coords_frame (map coordinate_cell coords) lo hi).
Proof.
  intros Hne (Ha & Hc & Hs) Hlo Hhi Hcoords.
  unfold get_all_coordinates, project. cbn [mapM].
  rewrite Ha, Hc, Hs. cbn [bind nrows]. rewrite length_map.
  destruct rows as [|r0 rows0] eqn:Erows; [contradiction|].
  cbn [List.length Nat.eqb bind]. rewrite <- Erows in *. clear Erows r0 rows0.
  pose proof (frame_rows_of_records "PSS_ADDRESS" (fun r => CStr (s_address r))
                [("PSS_CITY", fun r => CStr (s_city r));
                 ("PSS_STABB", fun r => CStr (s_stabb r))] rows) as Hrows.
  cbn [map fst snd] in Hrows.
  match goal with
  | |- context [frame_rows ?x] =>
      replace (frame_rows x)
        with (map (fun r => [CStr (s_address r); CStr (s_city r); CStr (s_stabb r)])
                  rows)
        by (symmetry; exact Hrows)
  end.
  clear Hrows.
  rewrite mapM_compose. rewrite (mapM_map _ full_address).
  2:{ apply Forall_forall. intros r _. reflexivity. }
  simpl. rewrite mapM_compose.
  apply mapM_Forall2 in Hcoords. rewrite Hcoords. simpl.
  rewrite getcol_setcol_same. simpl.
  rewrite !(getcol_setcol_other _ "COORDINATE") by discriminate.
  rewrite !(getcol_setcol_other _ "FULL_ADDRESS") by discriminate.
  rewrite Hlo, Hhi. simpl. rewrite map_map. reflexivity.
Qed.

End GeocoderFacts.

(** C2. The geocoder adapter is meant to return the no-result value for
    every missing or malformed answer.  On an empty result set it does
    not: indexing the first result raises IndexError before any field is
    looked at. *)
Theorem C2_empty_result_raises (coord_of : json -> result Q) (address : string) :
  get_coordinate Sample.no_results coord_of address = Raise IndexError.
Proof. reflexivity. Qed.





(** ** The district matcher *)

Lemma combine_map_map {A B C : Type} (f : A -> B) (g : A -> C) (l : list A) :
  combine (map f l) (map g l) = map (fun x => (f x, g x)) l.
Proof.
  induction l as [|x xs IH]; simpl; [reflexivity|]. rewrite IH; reflexivity.
Qed.

Lemma cell_le_total (a b : cell) :
  number_or_missing a = true -> number_or_missing b = true ->
  cell_le a b = Ok (cell_leb a b).
Proof.
  unfold cell_leb, cell_le.
  destruct a, b; simpl; try discriminate; intros _ _;
    repeat match goal with
           | |- context [match ?n with NInt _ => _ | _ => _ end] => destruct n
           end; reflexivity.
Qed.

Lemma nth_number_or_missing (col : Column) (i : nat) :
  Forall (fun c => number_or_missing c = true) col ->
  number_or_missing (nth i col CNone) = true.
Proof.
  intros H. destruct (Nat.lt_ge_cases i (List.length col)) as [Hi|Hi].
  - rewrite Forall_forall in H. apply H. apply nth_In. exact Hi.
  - rewrite nth_overflow by exact Hi. reflexivity.
Qed.

Lemma cmp_columns_map {A : Type} (cmp : cell -> cell -> result bool)
    (f g : A -> cell) (c : A -> bool) (l : list A) :
  (forall x, cmp (f x) (g x) = Ok (c x)) ->
  cmp_columns cmp (map f l) (map g l) = Ok (map c l).
Proof.
  intros H. unfold cmp_columns. rewrite combine_map_map, mapM_compose.
  apply mapM_map. apply Forall_forall. intros x _. simpl. apply H.
Qed.

Lemma mask_or_map {A : Type} (f g : A -> bool) (l : list A) :
  mask_or (map f l) (map g l) = map (fun x => (f x || g x)%bool) l.
Proof.
  unfold mask_or. rewrite combine_map_map, map_map. reflexivity.
Qed.

(** The distinct labels of an index are its elements. *)
Lemma in_labels (idx : list nat) (k : nat) : In k (labels idx) <-> In k idx.
Proof.
  unfold labels. rewrite filter_In, in_seq, existsb_exists. split.
  - intros (_ & x & Hx & E). apply Nat.eqb_eq in E. subst x. exact Hx.
  - intros H. split.
    + assert (Hmax : (list_max idx <= list_max idx)%nat) by apply Nat.le_refl.
      rewrite list_max_le, Forall_forall in Hmax. specialize (Hmax k H). lia.
    + exists k. split; [exact H | apply Nat.eqb_refl].
Qed.

Lemma series_get_map (F : nat -> cell) (ks : list nat) (k : nat) :
  series_get (map (fun i => (i, F i)) ks) k
  = if existsb (Nat.eqb k) ks then Some (F k) else None.
Proof.
  induction ks as [|i ks IH]; simpl; [reflexivity|].
  rewrite (Nat.eqb_sym k i). destruct (Nat.eqb i k) eqn:E; simpl.
  - apply Nat.eqb_eq in E. subst i. reflexivity.
  - exact IH.
Qed.

(** A label of the index has the list of its rows' values; any other
    label has no entry. *)
Lemma series_get_groupby (idx : list nat) (values : Column) (k : nat) :
  (In k idx ->
   series_get (groupby_agg_list idx values) k
   = Some (CList (select (map (Nat.eqb k) idx) values))) /\
  (~ In k idx -> series_get (groupby_agg_list idx values) k = None).
Proof.
  unfold groupby_agg_list.
  rewrite (series_get_map (fun k => CList (select (map (Nat.eqb k) idx) values))).
  destruct (existsb (Nat.eqb k) (labels idx)) eqn:E.
  - apply existsb_exists in E as (x & Hx & E). apply Nat.eqb_eq in E. subst x.
    apply (proj1 (in_labels idx k)) in Hx.
    split; [reflexivity | intros Hn; contradiction].
  - split; [|reflexivity]. intros H. apply (proj2 (in_labels idx k)) in H.
    assert (E' : existsb (Nat.eqb k) (labels idx) = true).
    { apply existsb_exists. exists k. split; [exact H | apply Nat.eqb_refl]. }
    congruence.
Qed.

Section MatcherFacts.

Variable within : geometry -> geometry -> bool.

Lemma in_sjoin_pairs (left right : Column) (i j : nat) :
  In (i, j) (sjoin_pairs within left right) <->
  (i < List.length left)%nat /\ (j < List.length right)%nat /\
  geom_within within (nth i left CNone) (nth j right CNone) = true.
Proof.
  unfold sjoin_pairs. rewrite in_flat_map. split.
  - intros (i' & Hi' & H). apply in_map_iff in H as (j' & E & Hj').
    injection E as -> ->. apply filter_In in Hj' as [Hj' Hw].
    apply in_seq in Hi'. apply in_seq in Hj'. repeat split; [lia | lia | exact Hw].
  - intros (Hi & Hj & Hw). exists i. split; [apply in_seq; lia|].
    apply in_map. apply filter_In. split; [apply in_seq; lia | exact Hw].
Qed.

(** The pairs of one school row, in district order. *)
Lemma sjoin_pairs_of_row (left right : Column) (i : nat) :
  filter (fun p => Nat.eqb i (fst p)) (sjoin_pairs within left right)
  = map (pair i)
        (filter (fun j => geom_within within (nth i left CNone) (nth j right CNone))
                (seq 0 (List.length right))).
Proof.
  unfold sjoin_pairs.
  set (g := fun i => filter (fun j => geom_within within (nth i left CNone)
                                                  (nth j right CNone))
                            (seq 0 (List.length right))).
  assert (Hgen : forall n s,
             filter (fun p => Nat.eqb i (fst p))
                    (flat_map (fun i' => map (pair i') (g i')) (seq s n))
             = if (Nat.leb s i && Nat.ltb i (s + n))%bool
               then map (pair i) (g i) else []).
  { induction n as [|n IH]; intros s.
    - simpl. replace (Nat.ltb i (s + 0)) with (Nat.ltb i s) by (f_equal; lia).
      destruct (Nat.leb s i) eqn:E1, (Nat.ltb i s) eqn:E2; try reflexivity.
      apply Nat.leb_le in E1. apply Nat.ltb_lt in E2. lia.
    - cbn [seq flat_map]. rewrite filter_app, IH.
      rewrite filter_map_swap. cbn [fst].
      destruct (Nat.eqb i s) eqn:E.
      + apply Nat.eqb_eq in E. subst s.
        rewrite filter_true.
        replace (Nat.leb (S i) i) with false by (symmetry; apply Nat.leb_gt; lia).
        rewrite Nat.leb_refl.
        replace (Nat.ltb i (i + S n)) with true by (symmetry; apply Nat.ltb_lt; lia).
        simpl. apply app_nil_r.
      + rewrite filter_false. cbn [app]. apply Nat.eqb_neq in E.
        replace (Nat.leb (S s) i && Nat.ltb i (S s + n))%bool
          with (Nat.leb s i && Nat.ltb i (s + S n))%bool; [reflexivity|].
        apply eq_true_iff_eq.
        rewrite !andb_true_iff, !Nat.leb_le, !Nat.ltb_lt. lia. }
  rewrite Hgen. simpl.
  destruct (Nat.ltb i (List.length left)) eqn:E; [reflexivity|].
  apply Nat.ltb_ge in E. unfold g.
  rewrite nth_overflow by exact E. simpl. rewrite filter_false. reflexivity.
Qed.

Lemma sjoin_shape (points slo shi names geoms dlo dhi : Column) :
  sjoin within (coords_frame points slo shi) (districts_frame names geoms dlo dhi)
  = Ok (joined_of points slo shi names dlo dhi (sjoin_pairs within points geoms)).
Proof.
  unfold sjoin, coords_frame, districts_frame, joined_of. cbn.
  unfold gather, district_label, int_cell. rewrite !map_map. reflexivity.
Qed.

Section NumericGrades.

Variables slo shi dlo dhi : Column.
Hypothesis slo_ok : Forall (fun c => number_or_missing c = true) slo.
Hypothesis shi_ok : Forall (fun c => number_or_missing c = true) shi.
Hypothesis dlo_ok : Forall (fun c => number_or_missing c = true) dlo.
Hypothesis dhi_ok : Forall (fun c => number_or_missing c = true) dhi.

Lemma grade_mask_shape (points names : Column) (pairs : list (nat * nat)) :
  grade_mask (joined_of points slo shi names dlo dhi pairs)
  = Ok (map (passes_grade_filter slo shi dlo dhi) pairs).
Proof.
  unfold grade_mask, joined_of. cbn [jframe getcol String.eqb Ascii.eqb Bool.eqb bind].
  rewrite (cmp_columns_map cell_ge _ _
             (fun p => cell_leb (nth (snd p) dlo CNone) (nth (fst p) slo CNone))).
  2:{ intros p. unfold cell_ge.
      apply cell_le_total; apply nth_number_or_missing; assumption. }
  cbn [bind].
  rewrite (cmp_columns_map cell_le _ _
             (fun p => cell_leb (nth (fst p) shi CNone) (nth (snd p) dhi CNone))).
  2:{ intros p. apply cell_le_total; apply nth_number_or_missing; assumption. }
  cbn [bind]. rewrite mask_or_map. reflexivity.
Qed.

Lemma grade_filter_shape (points names : Column) (pairs : list (nat * nat)) :
  grade_filter (joined_of points slo shi names dlo dhi pairs)
  = Ok (joined_of points slo shi names dlo dhi
                  (filter (passes_grade_filter slo shi dlo dhi) pairs)).
Proof.
  unfold grade_filter. rewrite grade_mask_shape. cbn [bind].
  unfold joined_of. cbn [jindex jframe filter_rows map fst snd].
  rewrite !select_map_filter. reflexivity.
Qed.

(** With grades that are numbers or missing the matcher returns, and its
    result is the grouping of the pairs that pass the grade filter. *)
Lemma get_districts_shape (points names geoms : Column) :
  get_districts_for_coordinates within
    (coords_frame points slo shi) (districts_frame names geoms dlo dhi)
  = let kept := filter (passes_grade_filter slo shi dlo dhi)
                       (sjoin_pairs within points geoms) in
    Ok (groupby_agg_list (map fst kept)
                         (map (fun p => nth (snd p) names CNone) kept)).
Proof.
  unfold get_districts_for_coordinates.
  rewrite sjoin_shape. cbn [bind]. rewrite grade_filter_shape. cbn [bind].
  reflexivity.
Qed.

End NumericGrades.

End MatcherFacts.

Lemma filter_filter {A : Type} (f g : A -> bool) (l : list A) :
  filter f (filter g l) = filter (fun x => (g x && f x)%bool) l.
Proof.
  induction l as [|x xs IH]; simpl; [reflexivity|].
  destruct (g x); simpl; [destruct (f x)|]; rewrite IH; reflexivity.
Qed.

Lemma align_nth (s : Series) (n i : nat) :
  (i < n)%nat ->
  nth i (align s n) CNone
  = match series_get s i with Some v => v | None => CNum NNaN end.
Proof.
  intros Hi. unfold align.
  rewrite (nth_indep _ CNone
             (match series_get s 0 with Some v => v | None => CNum NNaN end))
    by (rewrite length_map, length_seq; exact Hi).
  rewrite (map_nth (fun i => match series_get s i with
                             | Some v => v
                             | None => CNum NNaN
                             end) (seq 0 n) 0%nat i).
  rewrite seq_nth by exact Hi. reflexivity.
Qed.


Section MatcherEntries.

Variable within : geometry -> geometry -> bool.
Variables points slo shi names geoms dlo dhi : Column.
Hypothesis slo_ok : Forall (fun c => number_or_missing c = true) slo.
Hypothesis shi_ok : Forall (fun c => number_or_missing c = true) shi.
Hypothesis dlo_ok : Forall (fun c => number_or_missing c = true) dlo.
Hypothesis dhi_ok : Forall (fun c => number_or_missing c = true) dhi.

Lemma matcher_returns_matched :
  get_districts_for_coordinates within
    (coords_frame points slo shi) (districts_frame names geoms dlo dhi)
  = Ok (matched_series within points slo shi names geoms dlo dhi).
Proof.
  rewrite (get_districts_shape within slo shi dlo dhi slo_ok shi_ok dlo_ok dhi_ok).
  reflexivity.
Qed.

Lemma kept_pairs_of_row (i : nat) :
  filter (fun p => Nat.eqb i (fst p))
         (kept_pairs_of within points slo shi geoms dlo dhi)
  = map (pair i) (qualifying within points slo shi geoms dlo dhi i).
Proof.
  unfold kept_pairs_of. rewrite filter_filter.
  rewrite (filter_ext _ (fun x => (Nat.eqb i (fst x)
                                   && passes_grade_filter slo shi dlo dhi x)%bool))
    by (intros x; apply andb_comm).
  rewrite <- filter_filter, sjoin_pairs_of_row, filter_map_swap, filter_filter.
  reflexivity.
Qed.

(** The entry of a school row in the matcher's result. *)
Lemma matched_entry (i : nat) :
  match series_get (matched_series within points slo shi names geoms dlo dhi) i
  with
  | Some v => v
  | None => CNum NNaN
  end
  = districts_cell within points slo shi names geoms dlo dhi i /\
  (series_get (matched_series within points slo shi names geoms dlo dhi) i = None
   <-> qualifying within points slo shi geoms dlo dhi i = []).
Proof.
  unfold matched_series, districts_cell. cbv zeta.
  pose proof (kept_pairs_of_row i) as Hrow.
  set (kept := kept_pairs_of within points slo shi geoms dlo dhi) in *.
  destruct (qualifying within points slo shi geoms dlo dhi i) as [|j js] eqn:Hq.
  - assert (Hnone : series_get
                      (groupby_agg_list (map fst kept)
                         (map (fun p => nth (snd p) names CNone) kept)) i
                    = None).
    { apply series_get_groupby. intros Hin.
      apply in_map_iff in Hin as (p & E & Hp).
      assert (Hp' : In p (filter (fun p => Nat.eqb i (fst p)) kept)).
      { apply filter_In. split; [exact Hp|]. rewrite E. apply Nat.eqb_refl. }
      rewrite Hrow in Hp'. exact Hp'. }
    rewrite Hnone. split; [reflexivity | tauto].
  - assert (Hin : In i (map fst kept)).
    { assert (Hp : In (i, j) (filter (fun p => Nat.eqb i (fst p)) kept))
        by (rewrite Hrow; left; reflexivity).
      apply filter_In in Hp as [Hp _].
      apply in_map_iff. exists (i, j). split; [reflexivity | exact Hp]. }
    rewrite (proj1 (series_get_groupby _ _ i) Hin).
    rewrite map_map, select_map_filter, Hrow, map_map.
    split; [reflexivity | split; discriminate].
Qed.


End MatcherEntries.




(** C7. A school row whose coordinate is null takes no part in the spatial
    join: it is in no joined pair, its label is not in the joined table's
    index, and the matcher's result has no entry for it, so that its
    district list in the output is empty (NaN). *)
Theorem C7_null_coordinate_excluded (within : geometry -> geometry -> bool)
    (points slo shi names geoms dlo dhi : Column) (i : nat) :
  nth_error points i = Some CNone ->
  (forall j, ~ In (i, j) (sjoin_pairs within points geoms)) /\
  (exists joined,
      sjoin within (coords_frame points slo shi)
                   (districts_frame names geoms dlo dhi) = Ok joined /\
      ~ In i (jindex joined)) /\
  (forall series,
      get_districts_for_coordinates within
        (coords_frame points slo shi) (districts_frame names geoms dlo dhi)
      = Ok series ->
      series_get series i = None /\
      nth i (align series (List.length points)) CNone = CNum NNaN).
Proof.
  intros Hnull.
  assert (Hno : forall j, ~ In (i, j) (sjoin_pairs within points geoms)).
  { intros j H. apply in_sjoin_pairs in H as (_ & _ & H).
    rewrite (nth_error_nth _ _ CNone Hnull) in H. discriminate. }
  assert (Hidx : ~ In i (map fst (sjoin_pairs within points geoms))).
  { intros H. apply in_map_iff in H as ([i' j] & E & H). simpl in E. subst i'.
    exact (Hno j H). }
  split; [exact Hno|]. split.
  - eexists. split; [apply sjoin_shape | exact Hidx].
  - intros series H. unfold get_districts_for_coordinates in H.
    rewrite sjoin_shape in H. cbn [bind] in H.
    apply bind_Ok_inv in H as (filtered & Hf & H).
    apply bind_Ok_inv in H as (col & _ & H). injection H as <-.
    unfold grade_filter in Hf.
    apply bind_Ok_inv in Hf as (mask & _ & Hf). injection Hf as <-.
    cbn [jindex joined_of].
    assert (Hnone : series_get
                      (groupby_agg_list
                         (select mask (map fst (sjoin_pairs within points geoms)))
                         col) i = None).
    { apply series_get_groupby. intros Hin. apply Hidx.
      apply (select_incl mask). exact Hin. }
    split; [exact Hnone|].
    rewrite align_nth by (apply nth_error_Some; congruence).
    rewrite Hnone. reflexivity.
Qed.

Lemma C7_null_coordinate_excluded_witness :
  nth_error [CGeom (Point 1 1); CNone; CGeom (Point 9 9)] 1 = Some CNone /\
  exists joined,
    sjoin Sample.in_box
      (coords_frame [CGeom (Point 1 1); CNone; CGeom (Point 9 9)]
                    [int_cell 0; int_cell 9; int_cell 1]
                    [int_cell 5; int_cell 12; int_cell 8])
      Sample.arizona = Ok joined /\
    ~ In 1%nat (jindex joined).
Proof.
  split; [reflexivity|].
  apply (C7_null_coordinate_excluded Sample.in_box
           [CGeom (Point 1 1); CNone; CGeom (Point 9 9)]
           [int_cell 0; int_cell 9; int_cell 1]
           [int_cell 5; int_cell 12; int_cell 8]
           [CStr "Mesa Unified"; CStr "Mesa Elementary"]
           [CGeom (Sample.box 0 0 2 2); CGeom (Sample.box 0 0 3 3)]
           [int_cell 0; int_cell (-2)] [int_cell 12; int_cell 8] 1%nat).
  reflexivity.
Defined.




(** ** Grade fields through the pipeline *)

Lemma malformed_grade_is_zero (float_value : string -> numeric) (c : cell) :
  to_numeric float_value c = NNaN ->
  castable float_value c = true /\ grade_of float_value c = 0.
Proof.
  intros H. unfold castable, grade_of, coerce_grade. rewrite H.
  split; reflexivity.
Qed.

Lemma int_cells_are_numbers (zs : list Z) :
  Forall (fun c => number_or_missing c = true) (map int_cell zs).
Proof. apply Forall_map. apply Forall_forall. intros z _. reflexivity. Qed.

Lemma Forall2_map_self {A B : Type} (P : A -> B -> Prop) (f : A -> B)
    (l : list A) :
  (forall x, P x (f x)) -> Forall2 P l (map f l).
Proof.
  intros H. induction l as [|x xs IH]; simpl; constructor; [apply H | exact IH].
Qed.

(** C5, as the code has it.  In the district records a grade field that
    does not parse as a number never stops the load (only a grade of the
    region that reads as an infinity does), it is coerced to 0 and kept as
    data, and the grade comparison of the matcher never raises on the
    loaded districts when the school grades are numbers or missing.  The
    coercion is not applied to the school records. *)
Theorem C5_malformed_district_grades (float_value : string -> numeric)
    (within : geometry -> geometry -> bool)
    (gdf : DataFrame) (state_fip : string) (recs : list district_record) :
  holds_districts gdf recs ->
  Forall (fun r => castable float_value (r_lograde r) = true
                   /\ castable float_value (r_higrade r) = true)
         (filter (fun r => cell_eq_str (r_statefp r) state_fip) recs) ->
  exists d zlo zhi,
    read_shapefile float_value gdf state_fip = Ok d /\
    getcol d "LOGRADE" = Ok (map int_cell zlo) /\
    getcol d "HIGRADE" = Ok (map int_cell zhi) /\
    Forall2 (fun r z => to_numeric float_value (r_lograde r) = NNaN -> z = 0)
            (filter (fun r => cell_eq_str (r_statefp r) state_fip) recs) zlo /\
    Forall2 (fun r z => to_numeric float_value (r_higrade r) = NNaN -> z = 0)
            (filter (fun r => cell_eq_str (r_statefp r) state_fip) recs) zhi /\
    (forall c, to_numeric float_value c = NNaN -> castable float_value c = true) /\
    (forall points slo shi,
        Forall (fun c => number_or_missing c = true) slo ->
        Forall (fun c => number_or_missing c = true) shi ->
        exists series,
          get_districts_for_coordinates within (coords_frame points slo shi) d
          = Ok series).
Proof.
  set (kept := filter (fun r => cell_eq_str (r_statefp r) state_fip) recs).
  intros Hholds Hkept.
  eexists.
  exists (map (fun r => grade_of float_value (r_lograde r)) kept),
         (map (fun r => grade_of float_value (r_higrade r)) kept).
  split; [|split; [|split; [|split; [|split; [|split]]]]].
  - apply (read_shapefile_holds float_value gdf state_fip recs Hholds).
    + revert Hkept. apply Forall_impl. intros r [H _]; exact H.
    + revert Hkept. apply Forall_impl. intros r [_ H]; exact H.
  - cbn [districts_frame getcol String.eqb Ascii.eqb Bool.eqb].
    rewrite map_map. reflexivity.
  - cbn [districts_frame getcol String.eqb Ascii.eqb Bool.eqb].
    rewrite map_map. reflexivity.
  - apply Forall2_map_self. intros r. apply malformed_grade_is_zero.
  - apply Forall2_map_self. intros r. apply malformed_grade_is_zero.
  - intros c Hc. apply (malformed_grade_is_zero float_value c Hc).
  - intros points slo shi Hslo Hshi. eexists.
    apply get_districts_shape; try assumption.
    + rewrite <- (map_map (fun r => grade_of float_value (r_lograde r)) int_cell).
      apply int_cells_are_numbers.
    + rewrite <- (map_map (fun r => grade_of float_value (r_higrade r)) int_cell).
      apply int_cells_are_numbers.
Qed.

Lemma C5_malformed_district_grades_witness :
  exists d zlo zhi,
    read_shapefile Sample.no_floats Sample.polygons "04" = Ok d /\
    getcol d "LOGRADE" = Ok (map int_cell zlo) /\
    getcol d "HIGRADE" = Ok (map int_cell zhi) /\
    Forall2 (fun r z => to_numeric Sample.no_floats (r_lograde r) = NNaN -> z = 0)
            (filter (fun r => cell_eq_str (r_statefp r) "04") Sample.polygon_records)
            zlo /\
    Forall2 (fun r z => to_numeric Sample.no_floats (r_higrade r) = NNaN -> z = 0)
            (filter (fun r => cell_eq_str (r_statefp r) "04") Sample.polygon_records)
            zhi /\
    (forall c, to_numeric Sample.no_floats c = NNaN ->
               castable Sample.no_floats c = true) /\
    (forall points slo shi,
        Forall (fun c => number_or_missing c = true) slo ->
        Forall (fun c => number_or_missing c = true) shi ->
        exists series,
          get_districts_for_coordinates Sample.in_box
            (coords_frame points slo shi) d = Ok series).
Proof.
  apply (C5_malformed_district_grades Sample.no_floats Sample.in_box
           Sample.polygons "04" Sample.polygon_records).
  - repeat split; reflexivity.
  - simpl. repeat constructor.
Defined.

(** C5 as stated fails: a school whose low grade is the text K is not
    coerced, and the grade comparison raises TypeError when its point
    lies in a district. *)
Lemma C5_counterexample :
  (exists df' out,
      get_all_coordinates Sample.provider Sample.number_coord Sample.schools_K
      = Ok (df', out) /\
      getcol out "LOGRADE" = Ok [CStr "K"; CStr "9"; CStr "1"]) /\
  snd (get_districts_for_schools Sample.provider Sample.number_coord
         Sample.in_box Sample.schools_K Sample.arizona
         "schools_with_coords.csv" "schools_with_districts.csv" [])
  = Raise TypeError.
Proof.
  split.
  - eexists _, _. split; reflexivity.
  - reflexivity.
Qed.




(** ** The two CSV files *)

Lemma with_column_idem (cols : list string) (name : string) :
  with_column (with_column cols name) name = with_column cols name.
Proof.
  unfold with_column.
  destruct (existsb (String.eqb name) cols) eqn:E.
  - rewrite E. reflexivity.
  - rewrite existsb_app. simpl. rewrite String.eqb_refl, orb_true_r. reflexivity.
Qed.

(** C10, as the code has it.  A run that completes writes two files.  The
    header of the first is the unnamed row-label field, then the input
    school columns with the FULL_ADDRESS and the COORDINATE column (each
    appended, unless the input has a column of that name already); the
    header of the second is the same with the DISTRICTS column added.
    FULL_ADDRESS is there because the resolver assigns it to the frame it
    is given. *)
Theorem C10_csv_columns
    (client : string -> result json) (coord_of : json -> result Q)
    (within : geometry -> geometry -> bool)
    (schools_df districts_gdf : DataFrame) (coords_path districts_path : string)
    (fs fs' : FileSystem) :
  get_districts_for_schools client coord_of within schools_df districts_gdf
    coords_path districts_path fs = (fs', Ok tt) ->
  exists csv1 csv2,
    fs' = (districts_path, csv2) :: (coords_path, csv1) :: fs /\
    header csv1
    = "" :: with_column (with_column (columns schools_df) "FULL_ADDRESS")
                        "COORDINATE" /\
    header csv2
    = "" :: with_column
              (with_column (with_column (columns schools_df) "FULL_ADDRESS")
                           "COORDINATE")
              "DISTRICTS".
Proof.
  unfold get_districts_for_schools. intros H.
  destruct (get_all_coordinates client coord_of schools_df)
    as [[df' out]|e] eqn:Hres; [|discriminate].
  apply get_all_coordinates_inv in Hres
    as (full & coords & lo & hi & _ & _ & _ & -> & ->).
  cbn [coords_frame getcol String.eqb Ascii.eqb Bool.eqb] in H.
  destruct (get_districts_for_coordinates within _ districts_gdf)
    as [districts|e]; [|discriminate].
  injection H as <-.
  eexists _, _. split; [reflexivity|].
  unfold to_csv, write_file. cbn [header].
  rewrite !columns_setcol, with_column_idem. split; reflexivity.
Qed.

Lemma C10_csv_columns_witness :
  exists csv1 csv2,
    fst (get_districts_for_schools Sample.provider Sample.number_coord
           Sample.in_box Sample.schools Sample.arizona
           "schools_with_coords.csv" "schools_with_districts.csv" [])
    = [("schools_with_districts.csv", csv2); ("schools_with_coords.csv", csv1)] /\
    header csv1
    = [""; "PSS_ADDRESS"; "PSS_CITY"; "PSS_STABB"; "LOGRADE"; "HIGRADE";
       "FULL_ADDRESS"; "COORDINATE"] /\
    header csv2
    = [""; "PSS_ADDRESS"; "PSS_CITY"; "PSS_STABB"; "LOGRADE"; "HIGRADE";
       "FULL_ADDRESS"; "COORDINATE"; "DISTRICTS"].
Proof.
  destruct (C10_csv_columns Sample.provider Sample.number_coord Sample.in_box
              Sample.schools Sample.arizona
              "schools_with_coords.csv" "schools_with_districts.csv" []
              (fst (get_districts_for_schools Sample.provider Sample.number_coord
                      Sample.in_box Sample.schools Sample.arizona
                      "schools_with_coords.csv" "schools_with_districts.csv" [])))
    as (csv1 & csv2 & Hfs & H1 & H2).
  - reflexivity.
  - exists csv1, csv2. split; [exact Hfs|]. split; [exact H1 | exact H2].
Defined.

(** C10 as stated fails: both files have a FULL_ADDRESS column, which is
    neither an input column nor the coordinate or the district-list
    column. *)
Lemma C10_counterexample :
  exists csv1 csv2,
    get_districts_for_schools Sample.provider Sample.number_coord
      Sample.in_box Sample.schools Sample.arizona
      "schools_with_coords.csv" "schools_with_districts.csv" []
    = ([("schools_with_districts.csv", csv2); ("schools_with_coords.csv", csv1)],
       Ok tt) /\
    In "FULL_ADDRESS" (header csv1) /\
    In "FULL_ADDRESS" (header csv2) /\
    ~ In "FULL_ADDRESS" (columns Sample.schools ++ ["COORDINATE"; "DISTRICTS"])%list.
Proof.
  eexists _, _. split; [reflexivity|].
  split; [|split].
  - cbn. tauto.
  - cbn. tauto.
  - cbn. intros H.
    repeat (destruct H as [H|H]; [discriminate|]). exact H.
Qed.

(** ** Further properties of the geocoder adapter and the resolver *)

Lemma mapM_raise_uniform {A B : Type} (f : A -> result B) (E : exn)
    (l : list A) (x : A) :
  (forall y e, f y = Raise e -> e = E) ->
  In x l -> f x = Raise E -> mapM f l = Raise E.
Proof.
  intros Huni Hin Hx. induction l as [|a l IH]; [contradiction|].
  simpl. destruct (f a) as [b|e] eqn:Ha; simpl.
  - destruct Hin as [->|Hin]; [congruence|]. rewrite (IH Hin). reflexivity.
  - rewrite (Huni a e Ha). reflexivity.
Qed.

Lemma mapM_app_raise {A B : Type} (f : A -> result B) (e : exn)
    (pre post : list A) (x : A) :
  Forall (fun y => exists b, f y = Ok b) pre ->
  f x = Raise e -> mapM f (pre ++ x :: post) = Raise e.
Proof.
  intros Hpre Hx. induction Hpre as [|y pre [b Hy] _ IH]; simpl.
  - rewrite Hx. reflexivity.
  - rewrite Hy. simpl. rewrite IH. reflexivity.
Qed.

Lemma mapM_length {A B : Type} (f : A -> result B) (l : list A) (r : list B) :
  mapM f l = Ok r -> List.length r = List.length l.
Proof.
  intros H. apply mapM_Forall2 in H. symmetry. apply (Forall2_length H).
Qed.

Lemma getcol_missing (df : DataFrame) (n : string) :
  has_column df n = false -> getcol df n = Raise (KeyError n).
Proof.
  unfold has_column, columns. induction df as [|[m c] rest IH]; simpl.
  - reflexivity.
  - rewrite (String.eqb_sym n m). destruct (String.eqb m n); simpl.
    + discriminate.
    + exact IH.
Qed.

Lemma getcol_well_formed (df : DataFrame) (n : nat) (name : string) (c : Column) :
  well_formed df n -> getcol df name = Ok c -> List.length c = n.
Proof.
  unfold well_formed. induction 1 as [|[m v] rest Hv _ IH]; simpl.
  - discriminate.
  - destruct (String.eqb m name).
    + intros H. injection H as <-. exact Hv.
    + exact IH.
Qed.

Lemma well_formed_setcol (df : DataFrame) (n : nat) (name : string) (v : Column) :
  well_formed df n -> List.length v = n -> well_formed (setcol df name v) n.
Proof.
  unfold well_formed. intros Hdf Hv.
  induction Hdf as [|[m c] rest Hc Hrest IH]; simpl.
  - constructor; [exact Hv | constructor].
  - destruct (String.eqb m name); constructor; assumption.
Qed.

Lemma setcol_same (df : DataFrame) (name : string) (v : Column) :
  getcol df name = Ok v -> setcol df name v = df.
Proof.
  induction df as [|[m c] rest IH]; simpl.
  - discriminate.
  - destruct (String.eqb m name) eqn:E.
    + intros H. injection H as <-. reflexivity.
    + intros H. rewrite (IH H). reflexivity.
Qed.

Lemma str_join_raise (sep : string) (values : list cell) (e : exn) :
  str_join sep values = Raise e -> e = TypeError.
Proof.
  revert e. induction values as [|c rest IH]; intros e; simpl.
  - discriminate.
  - destruct c; try (intros H; injection H as <-; reflexivity).
    destruct rest as [|c' rest']; [discriminate|].
    destruct (str_join sep (c' :: rest')) as [t|e'] eqn:E; simpl.
    + discriminate.
    + intros H. injection H as <-. apply (IH e'). reflexivity.
Qed.

Lemma str_join_non_text (sep : string) (x y z : cell) :
  (is_str x && is_str y && is_str z)%bool = false ->
  str_join sep [x; y; z] = Raise TypeError.
Proof.
  destruct x, y, z; simpl; intros H; try discriminate; reflexivity.
Qed.

Section ResolverFacts.

Variable client : string -> result json.
Variable coord_of : json -> result Q.

(** What a successful resolution read, in full. *)
Lemma get_all_coordinates_reads (df df' out : DataFrame) :
  get_all_coordinates client coord_of df = Ok (df', out) ->
  exists addr city st full coords lo hi,
    getcol df "PSS_ADDRESS" = Ok addr /\
    getcol df "PSS_CITY" = Ok city /\
    getcol df "PSS_STABB" = Ok st /\
    getcol df "LOGRADE" = Ok lo /\
    getcol df "HIGRADE" = Ok hi /\
    List.length full = List.length addr /\
    List.length coords = List.length addr /\
    df' = setcol (setcol df "FULL_ADDRESS" (map CStr full))
                 "COORDINATE" (map coordinate_cell coords) /\
    out = coords_frame (map coordinate_cell coords) lo hi.
Proof.
  intros H.
  destruct (get_all_coordinates_inv client coord_of df df' out H)
    as (full & coords & lo & hi & Hc & Hlo & Hhi & Hdf' & Hout).
  unfold get_all_coordinates in H.
  apply bind_Ok_inv in H as (parts & Hparts & H).
  apply bind_Ok_inv in H as (u & _ & H).
  apply bind_Ok_inv in H as (full' & Hfull & H).
  apply bind_Ok_inv in H as (coords' & Hc' & H).
  apply bind_Ok_inv in H as (out' & _ & H).
  injection H as Hdf'' _.
  unfold project in Hparts. cbn [mapM] in Hparts.
  destruct (getcol df "PSS_ADDRESS") as [addr|] eqn:Ha; [|discriminate].
  destruct (getcol df "PSS_CITY") as [city|] eqn:Hci; [|discriminate].
  destruct (getcol df "PSS_STABB") as [st|] eqn:Hs; [|discriminate].
  cbn [bind] in Hparts. injection Hparts as <-.
  apply mapM_length in Hfull. apply mapM_length in Hc'.
  unfold frame_rows in Hfull. cbn [nrows] in Hfull.
  rewrite length_map, length_seq in Hfull.
  exists addr, city, st, full', coords', lo, hi.
  repeat split; try assumption; try reflexivity.
  - congruence.
  - symmetry. exact Hdf''.
  - rewrite Hout. f_equal. rewrite Hdf', <- Hdf'' in *.
    assert (E : getcol (setcol (setcol df "FULL_ADDRESS" (map CStr full))
                               "COORDINATE" (map coordinate_cell coords))
                       "COORDINATE"
                = getcol (setcol (setcol df "FULL_ADDRESS" (map CStr full'))
                                 "COORDINATE" (map coordinate_cell coords'))
                         "COORDINATE") by (rewrite Hdf''; reflexivity).
    rewrite !getcol_setcol_same in E. injection E as E. exact E.
Qed.

End ResolverFacts.

(** X1. When the first result of the provider has a geometry with a
    location, the adapter returns the point whose first coordinate is the
    location's lng and whose second is its lat; further results are not
    looked at. *)
Theorem X1_first_result_point
    (client : string -> result json) (coord_of : json -> result Q)
    (address : string) (first geom loc : list (string * json))
    (others : list json) (lng lat : json) (x y : Q) :
  client address = Ok (JList (JDict first :: others)) ->
  dict_get first "geometry" = Some (JDict geom) ->
  dict_get geom "location" = Some (JDict loc) ->
  dict_get loc "lng" = Some lng ->
  dict_get loc "lat" = Some lat ->
  coord_of lng = Ok x ->
  coord_of lat = Ok y ->
  get_coordinate client coord_of address = Ok (Some (Point x y)).
Proof.
  intros H Hg Hl Hlng Hlat Hx Hy. unfold get_coordinate.
  rewrite H. simpl. rewrite Hg. simpl. rewrite Hl. simpl.
  rewrite Hlng, Hlat. simpl. rewrite Hx. simpl. rewrite Hy. reflexivity.
Qed.

Lemma X1_first_result_point_witness :
  get_coordinate Sample.provider Sample.number_coord "3 Elm St,Ajo,AZ"
  = Ok (Some (Point (inject_Z 9) (inject_Z 9))).
Proof.
  apply (X1_first_result_point Sample.provider Sample.number_coord
           "3 Elm St,Ajo,AZ"
           [("geometry",
             JDict [("location",
                     JDict [("lat", JNum (inject_Z 9));
                            ("lng", JNum (inject_Z 9))])])]
           [("location",
             JDict [("lat", JNum (inject_Z 9)); ("lng", JNum (inject_Z 9))])]
           [("lat", JNum (inject_Z 9)); ("lng", JNum (inject_Z 9))]
           [] (JNum (inject_Z 9)) (JNum (inject_Z 9)));
    reflexivity.
Defined.

(** X2. A first result that is a dictionary without a geometry field, or
    whose geometry is a dictionary without a location field, gives the
    no-result value. *)
Theorem X2_missing_field_is_no_result
    (client : string -> result json) (coord_of : json -> result Q)
    (address : string) (first : list (string * json)) (others : list json) :
  client address = Ok (JList (JDict first :: others)) ->
  (dict_get first "geometry" = None \/
   exists geom, dict_get first "geometry" = Some (JDict geom) /\
                dict_get geom "location" = None) ->
  get_coordinate client coord_of address = Ok None.
Proof.
  intros H [Hg | (geom & Hg & Hl)].
  - apply (get_coordinate_no_geometry client coord_of address first others H Hg).
  - apply (get_coordinate_no_location client coord_of address first geom others
             H Hg Hl).
Qed.

Lemma X2_missing_field_is_no_result_witness :
  get_coordinate Sample.provider Sample.number_coord "2 Oak St,Yuma,AZ" = Ok None.
Proof.
  apply (X2_missing_field_is_no_result Sample.provider Sample.number_coord
           "2 Oak St,Yuma,AZ" [("partial_match", JBool true)] []).
  - reflexivity.
  - left. reflexivity.
Defined.

(** X3. The adapter guards the geometry and the location field only: a
    location without lng raises KeyError, and so does a location with lng
    and without lat, whatever the coordinate conversion would do. *)
Theorem X3_location_without_coordinate_raises
    (client : string -> result json) (coord_of : json -> result Q)
    (address : string) (first geom loc : list (string * json))
    (others : list json) :
  client address = Ok (JList (JDict first :: others)) ->
  dict_get first "geometry" = Some (JDict geom) ->
  dict_get geom "location" = Some (JDict loc) ->
  (dict_get loc "lng" = None ->
   get_coordinate client coord_of address = Raise (KeyError "lng")) /\
  (forall lng, dict_get loc "lng" = Some lng ->
               dict_get loc "lat" = None ->
               get_coordinate client coord_of address = Raise (KeyError "lat")).
Proof.
  intros H Hg Hl. split.
  - intros Hlng. unfold get_coordinate.
    rewrite H. simpl. rewrite Hg. simpl. rewrite Hl. simpl.
    rewrite Hlng. reflexivity.
  - intros lng Hlng Hlat. unfold get_coordinate.
    rewrite H. simpl. rewrite Hg. simpl. rewrite Hl. simpl.
    rewrite Hlng, Hlat. reflexivity.
Qed.

Lemma X3_location_without_coordinate_raises_witness :
  get_coordinate
    (fun _ => Ok (JList [JDict [("geometry",
                                 JDict [("location",
                                         JDict [("lat", JNum 1)])])]]))
    Sample.number_coord "1 Main St,Mesa,AZ"
  = Raise (KeyError "lng").
Proof.
  apply (X3_location_without_coordinate_raises
           (fun _ => Ok (JList [JDict [("geometry",
                                        JDict [("location",
                                                JDict [("lat", JNum 1)])])]]))
           Sample.number_coord "1 Main St,Mesa,AZ"
           [("geometry", JDict [("location", JDict [("lat", JNum 1)])])]
           [("location", JDict [("lat", JNum 1)])]
           [("lat", JNum 1)] []);
    reflexivity.
Defined.

(** X4. An address, city or state cell that is not text (a blank CSV field
    is NaN) makes the resolver raise TypeError when it joins the composite
    address. *)
Theorem X4_non_text_address_raises
    (client : string -> result json) (coord_of : json -> result Q)
    (df : DataFrame) (addr city st : Column) (i : nat) :
  getcol df "PSS_ADDRESS" = Ok addr ->
  getcol df "PSS_CITY" = Ok city ->
  getcol df "PSS_STABB" = Ok st ->
  (i < List.length addr)%nat ->
  (is_str (nth i addr CNone) && is_str (nth i city CNone)
   && is_str (nth i st CNone))%bool = false ->
  get_all_coordinates client coord_of df = Raise TypeError.
Proof.
  intros Ha Hc Hs Hi Hbad.
  unfold get_all_coordinates, project. cbn [mapM].
  rewrite Ha, Hc, Hs. cbn [bind nrows].
  destruct (Nat.eqb (List.length addr) 0) eqn:Hrows;
    [apply Nat.eqb_eq in Hrows; lia|]. cbn [bind].
  match goal with
  | |- context [mapM (str_join ",") ?rows] =>
      assert (Hraise : mapM (str_join ",") rows = Raise TypeError)
  end.
  { apply (mapM_raise_uniform (str_join ",") TypeError _
             [nth i addr CNone; nth i city CNone; nth i st CNone]).
    - intros row e. apply str_join_raise.
    - unfold frame_rows. cbn [nrows]. apply in_map_iff. exists i.
      split; [reflexivity | apply in_seq; lia].
    - apply str_join_non_text. exact Hbad. }
  rewrite Hraise. reflexivity.
Qed.

Lemma X4_non_text_address_raises_witness :
  get_all_coordinates Sample.provider Sample.number_coord
    Sample.schools_blank_city = Raise TypeError.
Proof.
  apply (X4_non_text_address_raises Sample.provider Sample.number_coord
           Sample.schools_blank_city
           [CStr "1 Main St"; CStr "2 Oak St"] [CStr "Mesa"; CNum NNaN]
           [CStr "AZ"; CStr "AZ"] 1%nat);
    try reflexivity.
  simpl. lia.
Defined.

(** X5. The resolver has no per-row recovery: the first row on which the
    geocoder adapter raises ends the resolution of the whole table with
    that exception, whatever follows. *)
Theorem X5_first_failure_aborts
    (client : string -> result json) (coord_of : json -> result Q)
    (df : DataFrame) (before after : list school_record) (r : school_record)
    (e : exn) :
  holds_schools df (before ++ r :: after) ->
  Forall (fun r' => exists c,
              get_coordinate client coord_of (full_address r') = Ok c) before ->
  get_coordinate client coord_of (full_address r) = Raise e ->
  get_all_coordinates client coord_of df = Raise e.
Proof.
  intros (Ha & Hc & Hs) Hbefore Hr.
  set (rows := (before ++ r :: after)%list) in *.
  unfold get_all_coordinates, project. cbn [mapM].
  rewrite Ha, Hc, Hs. cbn [bind nrows]. rewrite length_map.
  destruct (Nat.eqb (List.length rows) 0) eqn:Hzero.
  { apply Nat.eqb_eq in Hzero. unfold rows in Hzero.
    rewrite length_app in Hzero. simpl in Hzero. lia. }
  cbn [bind].
  pose proof (frame_rows_of_records "PSS_ADDRESS" (fun r => CStr (s_address r))
                [("PSS_CITY", fun r => CStr (s_city r));
                 ("PSS_STABB", fun r => CStr (s_stabb r))] rows) as Hrows.
  cbn [map fst snd] in Hrows.
  match goal with
  | |- context [frame_rows ?x] =>
      replace (frame_rows x)
        with (map (fun r => [CStr (s_address r); CStr (s_city r); CStr (s_stabb r)])
                  rows)
        by (symmetry; exact Hrows)
  end.
  clear Hrows.
  rewrite mapM_compose. rewrite (mapM_map _ full_address).
  2:{ apply Forall_forall. intros r' _. reflexivity. }
  cbn [bind]. unfold rows. rewrite map_app. cbn [map].
  rewrite (mapM_app_raise (get_coordinate client coord_of) e).
  - reflexivity.
  - apply Forall_map. exact Hbefore.
  - exact Hr.
Qed.

Lemma X5_first_failure_aborts_witness :
  get_all_coordinates Sample.no_results Sample.number_coord Sample.schools
  = Raise IndexError /\
  get_all_coordinates Sample.provider Sample.number_coord Sample.schools_unfound
  = Raise IndexError.
Proof.
  split.
  - apply (X5_first_failure_aborts Sample.no_results Sample.number_coord
             Sample.schools []
             [mkSchool "2 Oak St" "Yuma" "AZ"; mkSchool "3 Elm St" "Ajo" "AZ"]
             (mkSchool "1 Main St" "Mesa" "AZ")).
    + repeat split; reflexivity.
    + constructor.
    + reflexivity.
  - apply (X5_first_failure_aborts Sample.provider Sample.number_coord
             Sample.schools_unfound [mkSchool "1 Main St" "Mesa" "AZ"] []
             (mkSchool "7 Lost Rd" "Nowhere" "AZ")).
    + repeat split; reflexivity.
    + repeat constructor. eexists. reflexivity.
    + reflexivity.
Defined.

(** X6. The resolver changes the frame it is given in two columns only:
    FULL_ADDRESS and COORDINATE are set (appended when the frame does not
    have them), every other column keeps its name, place and values, and a
    frame whose columns all have n rows stays so, as is the table
    returned, which has the columns COORDINATE, LOGRADE and HIGRADE. *)
Theorem X6_resolver_frame_effect
    (client : string -> result json) (coord_of : json -> result Q)
    (df df' out : DataFrame) :
  get_all_coordinates client coord_of df = Ok (df', out) ->
  columns df' = with_column (with_column (columns df) "FULL_ADDRESS") "COORDINATE" /\
  (forall name, name <> "FULL_ADDRESS" -> name <> "COORDINATE" ->
                getcol df' name = getcol df name) /\
  getcol df' "COORDINATE" = getcol out "COORDINATE" /\
  columns out = ["COORDINATE"; "LOGRADE"; "HIGRADE"] /\
  (forall n, well_formed df n -> well_formed df' n /\ well_formed out n).
Proof.
  intros H.
  apply get_all_coordinates_reads in H
    as (addr & city & st & full & coords & lo & hi
        & Ha & _ & _ & Hlo & Hhi & Hfull & Hcoords & -> & ->).
  split; [|split; [|split; [|split]]].
  - rewrite !columns_setcol. reflexivity.
  - intros name Hf Hc.
    rewrite !getcol_setcol_other by (intros E; symmetry in E; contradiction).
    reflexivity.
  - rewrite getcol_setcol_same. reflexivity.
  - reflexivity.
  - intros n Hwf.
    pose proof (getcol_well_formed df n _ _ Hwf Ha) as Hn.
    split.
    + apply well_formed_setcol; [apply well_formed_setcol|].
      * exact Hwf.
      * rewrite length_map. congruence.
      * rewrite length_map. congruence.
    + unfold well_formed, coords_frame. repeat constructor; cbn [snd].
      * rewrite length_map. congruence.
      * apply (getcol_well_formed df n _ _ Hwf Hlo).
      * apply (getcol_well_formed df n _ _ Hwf Hhi).
Qed.

Lemma X6_resolver_frame_effect_witness :
  exists df' out,
    get_all_coordinates Sample.provider Sample.number_coord Sample.schools
    = Ok (df', out) /\
    columns df'
    = ["PSS_ADDRESS"; "PSS_CITY"; "PSS_STABB"; "LOGRADE"; "HIGRADE";
       "FULL_ADDRESS"; "COORDINATE"] /\
    getcol df' "PSS_CITY" = getcol Sample.schools "PSS_CITY".
Proof.
  eexists _, _. split; [reflexivity|].
  destruct (X6_resolver_frame_effect Sample.provider Sample.number_coord
              Sample.schools _ _ eq_refl) as (Hcols & Hkeep & _).
  split; [exact Hcols|]. apply Hkeep; discriminate.
Defined.

(** X7. The resolver needs five columns: without PSS_ADDRESS, PSS_CITY,
    PSS_STABB, LOGRADE or HIGRADE it raises. *)
Theorem X7_resolver_required_columns
    (client : string -> result json) (coord_of : json -> result Q)
    (df : DataFrame) (name : string) :
  In name ["PSS_ADDRESS"; "PSS_CITY"; "PSS_STABB"; "LOGRADE"; "HIGRADE"] ->
  has_column df name = false ->
  exists e, get_all_coordinates client coord_of df = Raise e.
Proof.
  intros Hname Hmissing. apply getcol_missing in Hmissing.
  destruct (get_all_coordinates client coord_of df) as [[df' out]|e] eqn:H.
  - apply get_all_coordinates_reads in H
      as (addr & city & st & full & coords & lo & hi
          & Ha & Hc & Hs & Hlo & Hhi & _).
    simpl in Hname.
    repeat (destruct Hname as [<-|Hname]; [congruence|]). contradiction.
  - exists e. reflexivity.
Qed.

Lemma X7_resolver_required_columns_witness :
  exists e,
    get_all_coordinates Sample.provider Sample.number_coord
      (coords_frame [] [] []) = Raise e.
Proof.
  apply (X7_resolver_required_columns Sample.provider Sample.number_coord
           (coords_frame [] [] []) "PSS_CITY").
  - right. left. reflexivity.
  - reflexivity.
Defined.

(** ** Further properties of the shapefile loader *)

Lemma mapM_raise_inv {A B : Type} (f : A -> result B) (l : list A) (e : exn) :
  mapM f l = Raise e -> exists x, In x l /\ f x = Raise e.
Proof.
  induction l as [|a l IH]; simpl; [discriminate|].
  destruct (f a) as [b|e'] eqn:Ha; simpl.
  - destruct (mapM f l) as [r|e'']; simpl; [discriminate|].
    intros H. injection H as <-.
    destruct (IH eq_refl) as (x & Hin & Hx).
    exists x. split; [right; exact Hin | exact Hx].
  - intros H. injection H as <-. exists a. split; [left; reflexivity | exact Ha].
Qed.

Section LoaderEdges.

Variable float_value : string -> numeric.

Lemma coerce_grade_raise (c : cell) (e : exn) :
  coerce_grade float_value c = Raise e -> e = IntCastingNaNError.
Proof.
  unfold coerce_grade. destruct (to_numeric float_value c); simpl;
    intros H; try discriminate; injection H as <-; reflexivity.
Qed.

Lemma coerce_grade_not_castable (c : cell) :
  castable float_value c = false ->
  coerce_grade float_value c = Raise IntCastingNaNError.
Proof.
  unfold castable, coerce_grade.
  destruct (to_numeric float_value c); simpl; intros H;
    try discriminate; reflexivity.
Qed.

Lemma coerce_column_raise (col : Column) (e : exn) :
  coerce_column float_value col = Raise e -> e = IntCastingNaNError.
Proof.
  unfold coerce_column.
  destruct (mapM (coerce_grade float_value) col) as [zs|e'] eqn:H; simpl.
  - discriminate.
  - intros E. injection E as <-.
    apply mapM_raise_inv in H as (c & _ & Hc).
    apply (coerce_grade_raise c e' Hc).
Qed.

Lemma coerce_column_not_castable (col : Column) (c : cell) :
  In c col -> castable float_value c = false ->
  coerce_column float_value col = Raise IntCastingNaNError.
Proof.
  intros Hin Hc. unfold coerce_column.
  rewrite (mapM_raise_uniform (coerce_grade float_value) IntCastingNaNError col c).
  - reflexivity.
  - apply coerce_grade_raise.
  - exact Hin.
  - apply coerce_grade_not_castable. exact Hc.
Qed.

(** The load of a dataset that holds its records, in terms of the records
    of the region. *)
Lemma read_shapefile_of_records (gdf : DataFrame) (state_fip : string)
    (recs : list district_record) :
  holds_districts gdf recs ->
  let kept := filter (fun r => cell_eq_str (r_statefp r) state_fip) recs in
  read_shapefile float_value gdf state_fip
  = (lo <- coerce_column float_value (map r_lograde kept) ;;
     hi <- coerce_column float_value (map r_higrade kept) ;;
     Ok (districts_frame (map r_name kept) (map r_geometry kept) lo hi)).
Proof.
  intros (Hst & Hn & Hg & Hlo & Hhi) kept.
  unfold read_shapefile. rewrite Hst. cbn [bind]. rewrite map_map.
  rewrite getcol_filter_rows, Hlo. cbn [bind].
  rewrite select_map_filter. fold kept.
  destruct (coerce_column float_value (map r_lograde kept)) as [lo|e];
    cbn [bind]; [|reflexivity].
  rewrite getcol_setcol_other by discriminate.
  rewrite getcol_filter_rows, Hhi. cbn [bind].
  rewrite select_map_filter. fold kept.
  destruct (coerce_column float_value (map r_higrade kept)) as [hi|e];
    cbn [bind]; [|reflexivity].
  unfold project. cbn [mapM].
  rewrite !getcol_setcol_same.
  rewrite !(getcol_setcol_other _ "HIGRADE") by discriminate.
  rewrite !getcol_setcol_same.
  rewrite !(getcol_setcol_other _ "LOGRADE") by discriminate.
  rewrite !getcol_filter_rows, Hn, Hg. cbn [bind].
  rewrite !select_map_filter. reflexivity.
Qed.

End LoaderEdges.

(** X8. A grade field of a record of the region that reads as an infinity
    stops the load: the integer cast raises. *)
Theorem X8_infinite_grade_stops_load (float_value : string -> numeric)
    (gdf : DataFrame) (state_fip : string) (recs : list district_record)
    (r : district_record) :
  holds_districts gdf recs ->
  In r recs ->
  cell_eq_str (r_statefp r) state_fip = true ->
  (castable float_value (r_lograde r)
   && castable float_value (r_higrade r))%bool = false ->
  read_shapefile float_value gdf state_fip = Raise IntCastingNaNError.
Proof.
  intros Hholds Hin Hfip Hbad.
  rewrite (read_shapefile_of_records float_value gdf state_fip recs Hholds).
  cbv zeta.
  set (kept := filter (fun r => cell_eq_str (r_statefp r) state_fip) recs).
  assert (Hkept : In r kept) by (apply filter_In; split; assumption).
  destruct (coerce_column float_value (map r_lograde kept)) as [lo|e] eqn:Hlo;
    cbn [bind].
  - destruct (castable float_value (r_lograde r)) eqn:Clo.
    + simpl in Hbad.
      rewrite (coerce_column_not_castable float_value _ (r_higrade r)).
      * reflexivity.
      * apply in_map. exact Hkept.
      * exact Hbad.
    + rewrite (coerce_column_not_castable float_value _ (r_lograde r)) in Hlo.
      * discriminate.
      * apply in_map. exact Hkept.
      * exact Clo.
  - rewrite (coerce_column_raise float_value _ e Hlo). reflexivity.
Qed.

Lemma X8_infinite_grade_stops_load_witness :
  read_shapefile Sample.no_floats Sample.polygons_inf "04"
  = Raise IntCastingNaNError.
Proof.
  apply (X8_infinite_grade_stops_load Sample.no_floats Sample.polygons_inf "04"
           Sample.polygon_records_inf
           (mkDistrict (CStr "04") (CStr "Mesa Elementary")
                       (CGeom (Sample.box 0 0 3 3)) (CStr "01") (CStr "inf"))).
  - repeat split; reflexivity.
  - right. left. reflexivity.
  - reflexivity.
  - reflexivity.
Defined.

(** X9. The load depends on the records of the region only: two datasets
    whose records of the region are the same stop with the same exception,
    or load to tables with the same columns and the same rows of values
    (name, geometry, low grade, high grade), whatever their other records
    hold. *)
Theorem X9_other_regions_have_no_effect (float_value : string -> numeric)
    (gdf1 gdf2 : DataFrame) (state_fip : string)
    (recs1 recs2 : list district_record) :
  holds_districts gdf1 recs1 ->
  holds_districts gdf2 recs2 ->
  filter (fun r => cell_eq_str (r_statefp r) state_fip) recs1
  = filter (fun r => cell_eq_str (r_statefp r) state_fip) recs2 ->
  match read_shapefile float_value gdf1 state_fip,
        read_shapefile float_value gdf2 state_fip with
  | Ok d1, Ok d2 => columns d1 = columns d2 /\ frame_rows d1 = frame_rows d2
  | Raise e1, Raise e2 => e1 = e2
  | _, _ => False
  end.
Proof.
  intros H1 H2 E.
  rewrite (read_shapefile_of_records float_value gdf1 state_fip recs1 H1).
  rewrite (read_shapefile_of_records float_value gdf2 state_fip recs2 H2).
  cbv zeta. rewrite E.
  destruct (lo <- coerce_column float_value _ ;; _) as [d|e].
  - split; reflexivity.
  - reflexivity.
Qed.

Lemma X9_other_regions_have_no_effect_witness :
  match read_shapefile Sample.no_floats Sample.polygons "04",
        read_shapefile Sample.no_floats
          [("STATEFP", [CStr "04"; CStr "04"; CStr "48"]);
           ("NAME", [CStr "Mesa Unified"; CStr "Mesa Elementary"; CStr "Austin ISD"]);
           ("geometry", [CGeom (Sample.box 0 0 2 2); CGeom (Sample.box 0 0 3 3);
                         CGeom (Sample.box 7 7 8 8)]);
           ("LOGRADE", [CStr "PK"; CStr "-2"; CStr "inf"]);
           ("HIGRADE", [CStr "12"; CStr "08"; CStr "12"])]
          "04" with
  | Ok d1, Ok d2 => columns d1 = columns d2 /\ frame_rows d1 = frame_rows d2
  | Raise e1, Raise e2 => e1 = e2
  | _, _ => False
  end.
Proof.
  apply (X9_other_regions_have_no_effect Sample.no_floats _ _ "04"
           Sample.polygon_records
           [mkDistrict (CStr "04") (CStr "Mesa Unified")
                       (CGeom (Sample.box 0 0 2 2)) (CStr "PK") (CStr "12");
            mkDistrict (CStr "04") (CStr "Mesa Elementary")
                       (CGeom (Sample.box 0 0 3 3)) (CStr "-2") (CStr "08");
            mkDistrict (CStr "48") (CStr "Austin ISD")
                       (CGeom (Sample.box 7 7 8 8)) (CStr "inf") (CStr "12")]).
  - repeat split; reflexivity.
  - repeat split; reflexivity.
  - reflexivity.
Defined.

(** X10. A region code that no record carries (also when the state codes
    are numbers and not text) is no error: the load returns the table with
    the four columns and no row. *)
Theorem X10_unknown_region_loads_empty (float_value : string -> numeric)
    (gdf : DataFrame) (state_fip : string) (recs : list district_record) :
  holds_districts gdf recs ->
  Forall (fun r => r_statefp r <> CStr state_fip) recs ->
  read_shapefile float_value gdf state_fip = Ok (districts_frame [] [] [] []).
Proof.
  intros Hholds Hnone.
  rewrite (read_shapefile_of_records float_value gdf state_fip recs Hholds).
  cbv zeta.
  replace (filter (fun r => cell_eq_str (r_statefp r) state_fip) recs)
    with (@nil district_record); [reflexivity|].
  symmetry. clear Hholds.
  induction Hnone as [|r rs Hr _ IH]; simpl; [reflexivity|].
  destruct (cell_eq_str (r_statefp r) state_fip) eqn:E; [|exact IH].
  exfalso. apply Hr. unfold cell_eq_str in E.
  destruct (r_statefp r); try discriminate.
  apply String.eqb_eq in E. subst. reflexivity.
Qed.

Lemma X10_unknown_region_loads_empty_witness :
  read_shapefile Sample.no_floats Sample.polygons "48"
  = Ok (districts_frame [] [] [] []).
Proof.
  apply (X10_unknown_region_loads_empty Sample.no_floats Sample.polygons "48"
           Sample.polygon_records).
  - repeat split; reflexivity.
  - repeat constructor; discriminate.
Defined.

(** X11. The loader needs five columns: without STATEFP, NAME, geometry,
    LOGRADE or HIGRADE it raises. *)
Theorem X11_loader_required_columns (float_value : string -> numeric)
    (gdf : DataFrame) (state_fip name : string) :
  In name ["STATEFP"; "NAME"; "geometry"; "LOGRADE"; "HIGRADE"] ->
  has_column gdf name = false ->
  exists e, read_shapefile float_value gdf state_fip = Raise e.
Proof.
  intros Hname Hmissing. apply getcol_missing in Hmissing.
  destruct (read_shapefile float_value gdf state_fip) as [d|e] eqn:H.
  - apply read_shapefile_inv in H
      as (statefp & names & geoms & lo & hi & zlo & zhi
          & Hst & Hn & Hg & Hlo & Hhi & _).
    simpl in Hname.
    repeat (destruct Hname as [<-|Hname]; [congruence|]). contradiction.
  - exists e. reflexivity.
Qed.

Lemma X11_loader_required_columns_witness :
  exists e, read_shapefile Sample.no_floats Sample.arizona "04" = Raise e.
Proof.
  apply (X11_loader_required_columns Sample.no_floats Sample.arizona "04"
           "STATEFP").
  - left. reflexivity.
  - reflexivity.
Defined.

(** ** Further properties of the district matcher *)

Lemma cell_le_raise (a b : cell) (e : exn) :
  cell_le a b = Raise e -> e = TypeError.
Proof.
  unfold cell_le. destruct (is_null a || is_null b)%bool; [discriminate|].
  destruct a, b; intros H; try discriminate; injection H as <-; reflexivity.
Qed.

Lemma cell_leb_null (a b : cell) :
  (is_null a || is_null b)%bool = true -> cell_leb a b = false.
Proof.
  intros H. unfold cell_leb, cell_le. rewrite H. reflexivity.
Qed.

Lemma filter_none {A : Type} (f : A -> bool) (l : list A) :
  (forall x, In x l -> f x = false) -> filter f l = [].
Proof.
  induction l as [|x xs IH]; simpl; intros H; [reflexivity|].
  rewrite (H x) by (left; reflexivity).
  apply IH. intros y Hy. apply H. right. exact Hy.
Qed.

Lemma filter_seq_only (f : nat -> bool) (n j : nat) :
  (j < n)%nat -> f j = true ->
  (forall k, (k < n)%nat -> k <> j -> f k = false) ->
  filter f (seq 0 n) = [j].
Proof.
  intros Hj Hfj Hothers.
  replace n with (j + S (n - S j))%nat by lia.
  rewrite seq_app, filter_app. cbn [seq filter Nat.add]. rewrite Hfj.
  rewrite !filter_none.
  - reflexivity.
  - intros k Hk. apply in_seq in Hk. apply Hothers; lia.
  - intros k Hk. apply in_seq in Hk. apply Hothers; lia.
Qed.


(** X12. When no point lies within any polygon (no districts, no
    coordinates, or none inside) the matcher returns the empty series
    without comparing a grade: the grade cells can hold anything. *)
Theorem X12_no_containment_no_comparison (within : geometry -> geometry -> bool)
    (points slo shi names geoms dlo dhi : Column) :
  (forall i j, (i < List.length points)%nat -> (j < List.length geoms)%nat ->
               geom_within within (nth i points CNone) (nth j geoms CNone) = false) ->
  get_districts_for_coordinates within
    (coords_frame points slo shi) (districts_frame names geoms dlo dhi)
  = Ok [].
Proof.
  intros Hnone.
  assert (E : sjoin_pairs within points geoms = []).
  { destruct (sjoin_pairs within points geoms) as [|[i j] l] eqn:E; [reflexivity|].
    assert (Hin : In (i, j) (sjoin_pairs within points geoms))
      by (rewrite E; left; reflexivity).
    apply in_sjoin_pairs in Hin as (Hi & Hj & Hw).
    rewrite (Hnone i j Hi Hj) in Hw. discriminate. }
  unfold get_districts_for_coordinates. rewrite sjoin_shape, E. reflexivity.
Qed.

Lemma X12_no_containment_no_comparison_witness :
  get_districts_for_coordinates Sample.in_box
    (coords_frame [CGeom (Point (inject_Z 9) (inject_Z 9)); CNone]
                  [CStr "K"; CStr "1"] [CStr "5"; CStr "8"])
    Sample.arizona
  = Ok [].
Proof.
  apply (X12_no_containment_no_comparison Sample.in_box
           [CGeom (Point (inject_Z 9) (inject_Z 9)); CNone]
           [CStr "K"; CStr "1"] [CStr "5"; CStr "8"]
           [CStr "Mesa Unified"; CStr "Mesa Elementary"]
           [CGeom (Sample.box 0 0 2 2); CGeom (Sample.box 0 0 3 3)]
           [int_cell 0; int_cell (-2)] [int_cell 12; int_cell 8]).
  intros i j Hi Hj. simpl in Hi, Hj.
  destruct i as [|[|i]]; [| |lia]; destruct j as [|[|j]]; try lia; reflexivity.
Defined.

(** X13. A school whose low grade is text and whose point lies within a
    district with a numeric low grade makes the matcher raise TypeError:
    no stage turns a school grade into a number. *)
Theorem X13_text_school_grade_raises (within : geometry -> geometry -> bool)
    (points slo shi names geoms dlo dhi : Column)
    (i j : nat) (p g : geometry) (s : string) (c : Z) :
  nth_error points i = Some (CGeom p) ->
  nth_error geoms j = Some (CGeom g) ->
  within p g = true ->
  nth_error slo i = Some (CStr s) ->
  nth_error dlo j = Some (int_cell c) ->
  get_districts_for_coordinates within
    (coords_frame points slo shi) (districts_frame names geoms dlo dhi)
  = Raise TypeError.
Proof.
  intros Hp Hg Hw Hs Hc.
  assert (Hin : In (i, j) (sjoin_pairs within points geoms)).
  { apply in_sjoin_pairs. repeat split.
    - apply nth_error_Some. congruence.
    - apply nth_error_Some. congruence.
    - rewrite (nth_error_nth _ _ CNone Hp), (nth_error_nth _ _ CNone Hg).
      exact Hw. }
  unfold get_districts_for_coordinates. rewrite sjoin_shape. cbn [bind].
  unfold grade_filter, grade_mask, joined_of.
  cbn [jframe getcol String.eqb Ascii.eqb Bool.eqb bind].
  unfold cmp_columns at 1. rewrite combine_map_map, mapM_compose.
  rewrite (mapM_raise_uniform _ TypeError _ (i, j)).
  - reflexivity.
  - intros q e. cbn [fst snd]. unfold cell_ge. apply cell_le_raise.
  - exact Hin.
  - cbn [fst snd].
    rewrite (nth_error_nth _ _ CNone Hs), (nth_error_nth _ _ CNone Hc).
    reflexivity.
Qed.

Lemma X13_text_school_grade_raises_witness :
  get_districts_for_coordinates Sample.in_box
    (coords_frame [CGeom (Point 1 1)] [CStr "K"] [int_cell 5])
    Sample.arizona
  = Raise TypeError.
Proof.
  apply (X13_text_school_grade_raises Sample.in_box
           [CGeom (Point 1 1)] [CStr "K"] [int_cell 5]
           [CStr "Mesa Unified"; CStr "Mesa Elementary"]
           [CGeom (Sample.box 0 0 2 2); CGeom (Sample.box 0 0 3 3)]
           [int_cell 0; int_cell (-2)] [int_cell 12; int_cell 8]
           0%nat 0%nat (Point 1 1) (Sample.box 0 0 2 2) "K" 0);
    reflexivity.
Defined.

(** X14. A school whose low grade and high grade are both missing passes
    the grade filter with no district: the matcher returns and has no
    entry for it, wherever its point lies. *)
Theorem X14_missing_grades_match_nothing (within : geometry -> geometry -> bool)
    (points slo shi names geoms dlo dhi : Column) (i : nat) :
  Forall (fun c => number_or_missing c = true) slo ->
  Forall (fun c => number_or_missing c = true) shi ->
  Forall (fun c => number_or_missing c = true) dlo ->
  Forall (fun c => number_or_missing c = true) dhi ->
  is_null (nth i slo CNone) = true ->
  is_null (nth i shi CNone) = true ->
  exists series,
    get_districts_for_coordinates within
      (coords_frame points slo shi) (districts_frame names geoms dlo dhi)
    = Ok series /\
    series_get series i = None.
Proof.
  intros Hslo Hshi Hdlo Hdhi Hlo Hhi.
  exists (matched_series within points slo shi names geoms dlo dhi).
  split; [apply matcher_returns_matched; assumption|].
  apply (matched_entry within points slo shi names geoms dlo dhi).
  unfold qualifying. apply filter_none. intros j _.
  unfold passes_grade_filter. cbn [fst snd].
  rewrite (cell_leb_null _ (nth i slo CNone)) by (rewrite Hlo; apply orb_true_r).
  rewrite (cell_leb_null (nth i shi CNone)) by (rewrite Hhi; reflexivity).
  apply andb_false_r.
Qed.

Lemma X14_missing_grades_match_nothing_witness :
  exists series,
    get_districts_for_coordinates Sample.in_box
      (coords_frame [CGeom (Point 1 1)] [CNum NNaN] [CNum NNaN])
      Sample.arizona = Ok series /\
    series_get series 0 = None.
Proof.
  apply (X14_missing_grades_match_nothing Sample.in_box
           [CGeom (Point 1 1)] [CNum NNaN] [CNum NNaN]
           [CStr "Mesa Unified"; CStr "Mesa Elementary"]
           [CGeom (Sample.box 0 0 2 2); CGeom (Sample.box 0 0 3 3)]
           [int_cell 0; int_cell (-2)] [int_cell 12; int_cell 8] 0%nat);
    try reflexivity; repeat constructor.
Defined.

(** X15. A school whose point lies within exactly one polygon, with which
    it passes the grade filter, gets the list that holds that district's
    name and nothing else. *)
Theorem X15_single_containing_district (within : geometry -> geometry -> bool)
    (points slo shi names geoms dlo dhi : Column) (i j : nat) :
  Forall (fun c => number_or_missing c = true) slo ->
  Forall (fun c => number_or_missing c = true) shi ->
  Forall (fun c => number_or_missing c = true) dlo ->
  Forall (fun c => number_or_missing c = true) dhi ->
  (j < List.length geoms)%nat ->
  geom_within within (nth i points CNone) (nth j geoms CNone) = true ->
  (forall k, (k < List.length geoms)%nat -> k <> j ->
             geom_within within (nth i points CNone) (nth k geoms CNone) = false) ->
  passes_grade_filter slo shi dlo dhi (i, j) = true ->
  exists series,
    get_districts_for_coordinates within
      (coords_frame points slo shi) (districts_frame names geoms dlo dhi)
    = Ok series /\
    series_get series i = Some (CList [nth j names CNone]).
Proof.
  intros Hslo Hshi Hdlo Hdhi Hj Hin Hout Hpass.
  exists (matched_series within points slo shi names geoms dlo dhi).
  split; [apply matcher_returns_matched; assumption|].
  destruct (matched_entry within points slo shi names geoms dlo dhi i)
    as [Hcell Hnone].
  assert (Hq : qualifying within points slo shi geoms dlo dhi i = [j]).
  { unfold qualifying. apply filter_seq_only.
    - exact Hj.
    - rewrite Hin, Hpass. reflexivity.
    - intros k Hk Hkj. rewrite (Hout k Hk Hkj). reflexivity. }
  unfold districts_cell in Hcell. rewrite Hq in Hcell, Hnone.
  destruct (series_get (matched_series within points slo shi names geoms dlo dhi) i)
    as [v|].
  - cbn [map] in Hcell. rewrite Hcell. reflexivity.
  - exfalso. assert (E : [j] = @nil nat) by (apply Hnone; reflexivity).
    discriminate.
Qed.

Lemma X15_single_containing_district_witness :
  exists series,
    get_districts_for_coordinates Sample.in_box
      (coords_frame [CGeom (Point (5 # 2) (5 # 2))] [int_cell 1] [int_cell 8])
      Sample.arizona = Ok series /\
    series_get series 0 = Some (CList [CStr "Mesa Elementary"]).
Proof.
  apply (X15_single_containing_district Sample.in_box
           [CGeom (Point (5 # 2) (5 # 2))] [int_cell 1] [int_cell 8]
           [CStr "Mesa Unified"; CStr "Mesa Elementary"]
           [CGeom (Sample.box 0 0 2 2); CGeom (Sample.box 0 0 3 3)]
           [int_cell 0; int_cell (-2)] [int_cell 12; int_cell 8] 0%nat 1%nat);
    try reflexivity; try (repeat constructor).
  intros k Hk Hkj. simpl in Hk.
  destruct k as [|[|k]]; [reflexivity | contradiction | lia].
Defined.

Lemma select_length {A B : Type} (mask : list bool) (l1 : list A) (l2 : list B) :
  List.length l1 = List.length l2 ->
  List.length (select mask l1) = List.length (select mask l2).
Proof.
  revert l1 l2. induction mask as [|b mask IH]; intros [|x l1] [|y l2];
    simpl; intros H; try reflexivity; try discriminate.
  injection H as H. destruct b; simpl; rewrite (IH l1 l2 H); reflexivity.
Qed.

Lemma select_label_nonempty (k : nat) (idx : list nat) (values : Column) :
  In k idx -> List.length idx = List.length values ->
  exists x l, select (map (Nat.eqb k) idx) values = x :: l.
Proof.
  revert values. induction idx as [|i idx IH]; intros [|v values] Hin Hlen;
    simpl in *; try contradiction; try discriminate.
  injection Hlen as Hlen.
  destruct (Nat.eqb k i) eqn:E.
  - eexists _, _. reflexivity.
  - destruct Hin as [->|Hin]; [rewrite Nat.eqb_refl in E; discriminate|].
    apply (IH values Hin Hlen).
Qed.

Lemma filter_seq_sorted (f : nat -> bool) (n s : nat) :
  StronglySorted lt (filter f (seq s n)).
Proof.
  revert s. induction n as [|n IH]; intros s; simpl; [constructor|].
  destruct (f s).
  - constructor; [apply IH|].
    apply Forall_forall. intros k Hk. apply filter_In in Hk as [Hk _].
    apply in_seq in Hk. lia.
  - apply IH.
Qed.

(** X16. Whenever the matcher returns, its result is indexed by school
    rows in strictly ascending order (one entry per row at most), every
    label is a row of the school table, and every entry is a list with one
    name at least: a row without district has no entry and never the empty
    list. *)
Theorem X16_result_index_and_entries (within : geometry -> geometry -> bool)
    (points slo shi names geoms dlo dhi : Column) (series : Series) :
  get_districts_for_coordinates within
    (coords_frame points slo shi) (districts_frame names geoms dlo dhi)
  = Ok series ->
  StronglySorted lt (map fst series) /\
  (forall k v, In (k, v) series ->
               (k < List.length points)%nat /\ exists x l, v = CList (x :: l)).
Proof.
  intros H. unfold get_districts_for_coordinates in H.
  rewrite sjoin_shape in H. cbn [bind] in H.
  apply bind_Ok_inv in H as (filtered & Hf & H).
  apply bind_Ok_inv in H as (col & Hcol & H). injection H as <-.
  unfold grade_filter in Hf.
  apply bind_Ok_inv in Hf as (mask & _ & Hf). injection Hf as <-.
  cbn [jindex jframe joined_of] in *.
  cbn [getcol String.eqb Ascii.eqb Bool.eqb] in Hcol.
  injection Hcol as <-.
  set (pairs := sjoin_pairs within points geoms) in *.
  set (idx := select mask (map fst pairs)).
  split.
  - unfold groupby_agg_list. rewrite map_map. cbn [fst]. rewrite map_id.
    apply filter_seq_sorted.
  - intros k v Hin. unfold groupby_agg_list in Hin.
    apply in_map_iff in Hin as (k' & E & Hk). injection E as -> <-.
    apply (proj1 (in_labels idx k)) in Hk. split.
    + apply (select_incl mask) in Hk.
      apply in_map_iff in Hk as ([i j] & E & Hp). simpl in E. subst i.
      apply in_sjoin_pairs in Hp as (Hi & _). exact Hi.
    + destruct (select_label_nonempty k idx
                  (select mask (map (fun p => nth (snd p) names CNone) pairs)) Hk)
        as (x & l & E).
      * apply select_length. rewrite !length_map. reflexivity.
      * exists x, l. rewrite E. reflexivity.
Qed.

Lemma X16_result_index_and_entries_witness :
  StronglySorted lt
    (map fst [(0%nat, CList [CStr "Mesa Unified"; CStr "Mesa Elementary"])]) /\
  (forall k v,
      In (k, v) [(0%nat, CList [CStr "Mesa Unified"; CStr "Mesa Elementary"])] ->
      (k < 3)%nat /\ exists x l, v = CList (x :: l)).
Proof.
  apply (X16_result_index_and_entries Sample.in_box
           [CGeom (Point 1 1); CNone; CGeom (Point (inject_Z 9) (inject_Z 9))]
           [int_cell 0; int_cell 9; int_cell 1]
           [int_cell 5; int_cell 12; int_cell 8]
           [CStr "Mesa Unified"; CStr "Mesa Elementary"]
           [CGeom (Sample.box 0 0 2 2); CGeom (Sample.box 0 0 3 3)]
           [int_cell 0; int_cell (-2)] [int_cell 12; int_cell 8]).
  reflexivity.
Defined.

(** ** Further properties of the driver and of the script *)

Lemma nrows_well_formed (df : DataFrame) (n : nat) :
  well_formed df n -> df <> [] -> nrows df = n.
Proof.
  unfold well_formed. intros H Hne. destruct df as [|[m c] rest]; [contradiction|].
  inversion H; subst. reflexivity.
Qed.

Lemma setcol_nonempty (df : DataFrame) (name : string) (v : Column) :
  setcol df name v <> [].
Proof.
  destruct df as [|[m c] rest]; simpl; [discriminate|].
  destruct (String.eqb m name); discriminate.
Qed.

Lemma align_length (s : Series) (n : nat) : List.length (align s n) = n.
Proof. unfold align. rewrite length_map, length_seq. reflexivity. Qed.

Lemma to_csv_records_length (df : DataFrame) :
  List.length (records (to_csv df)) = nrows df.
Proof. unfold to_csv. cbn [records]. rewrite length_map, length_seq. reflexivity. Qed.

Lemma columns_rename (f : string -> string) (df : DataFrame) :
  columns (rename_columns f df) = map f (columns df).
Proof. unfold columns, rename_columns. rewrite !map_map. reflexivity. Qed.

Lemma getcol_in_columns (df : DataFrame) (name : string) (c : Column) :
  getcol df name = Ok c -> In name (columns df).
Proof.
  induction df as [|[m v] rest IH]; simpl; [discriminate|].
  destruct (String.eqb m name) eqn:E.
  - intros _. left. apply String.eqb_eq. exact E.
  - intros H. right. apply IH. exact H.
Qed.

Lemma upper_idem (c : ascii) : upper (upper c) = upper c.
Proof. destruct c as [[] [] [] [] [] [] [] []]; reflexivity. Qed.

Lemma str_upper_idem (s : string) : str_upper (str_upper s) = str_upper s.
Proof.
  unfold str_upper. rewrite list_ascii_of_string_of_list_ascii, map_map.
  f_equal. apply map_ext. apply upper_idem.
Qed.

Section DriverFacts.

Variable client : string -> result json.
Variable coord_of : json -> result Q.
Variable within : geometry -> geometry -> bool.

(** The driver, step by step: the frame written to the first file is the
    frame as the resolver left it. *)
Lemma get_districts_for_schools_steps
    (schools_df districts_gdf : DataFrame) (coords_path districts_path : string)
    (fs : FileSystem) :
  get_districts_for_schools client coord_of within schools_df districts_gdf
    coords_path districts_path fs
  = match get_all_coordinates client coord_of schools_df with
    | Raise e => (fs, Raise e)
    | Ok (df', out) =>
        match get_districts_for_coordinates within out districts_gdf with
        | Raise e => ((coords_path, to_csv df') :: fs, Raise e)
        | Ok series =>
            ((districts_path,
              to_csv (setcol df' "DISTRICTS" (align series (nrows df'))))
               :: (coords_path, to_csv df') :: fs,
             Ok tt)
        end
    end.
Proof.
  unfold get_districts_for_schools.
  destruct (get_all_coordinates client coord_of schools_df)
    as [[df' out]|e] eqn:H; [|reflexivity].
  apply get_all_coordinates_inv in H
    as (full & coords & lo & hi & _ & _ & _ & -> & ->).
  cbn [coords_frame getcol String.eqb Ascii.eqb Bool.eqb].
  rewrite (setcol_same _ "COORDINATE" (map coordinate_cell coords))
    by apply getcol_setcol_same.
  reflexivity.
Qed.

End DriverFacts.

(** X17. The driver writes nothing when the resolution raises.  When the
    resolution returns it writes the first file, with the frame as the
    resolver left it; that file stays when the matcher raises, and the run
    ends with the matcher's exception.  The second file is written exactly
    when the matcher returns, with the frame of the first file and the
    DISTRICTS column aligned from the matcher's result, and the run then
    succeeds.  Files written earlier are kept in every case. *)
Theorem X17_checkpoint_files
    (client : string -> result json) (coord_of : json -> result Q)
    (within : geometry -> geometry -> bool)
    (schools_df districts_gdf : DataFrame) (coords_path districts_path : string)
    (fs fs' : FileSystem) (r : result unit) :
  get_districts_for_schools client coord_of within schools_df districts_gdf
    coords_path districts_path fs = (fs', r) ->
  (exists e, get_all_coordinates client coord_of schools_df = Raise e /\
             fs' = fs /\ r = Raise e) \/
  (exists df' out,
      get_all_coordinates client coord_of schools_df = Ok (df', out) /\
      ((exists e, get_districts_for_coordinates within out districts_gdf = Raise e /\
                  fs' = (coords_path, to_csv df') :: fs /\ r = Raise e) \/
       (exists series,
           get_districts_for_coordinates within out districts_gdf = Ok series /\
           fs' = (districts_path,
                  to_csv (setcol df' "DISTRICTS" (align series (nrows df'))))
                   :: (coords_path, to_csv df') :: fs /\
           r = Ok tt))).
Proof.
  rewrite get_districts_for_schools_steps.
  destruct (get_all_coordinates client coord_of schools_df) as [[df' out]|e].
  - destruct (get_districts_for_coordinates within out districts_gdf)
      as [series|e] eqn:Hm; intros H; injection H as <- <-; right;
      exists df', out; (split; [reflexivity|]).
    + right. exists series. split; [exact Hm|]. split; reflexivity.
    + left. exists e. split; [exact Hm|]. split; reflexivity.
  - intros H; injection H as <- <-. left. exists e. repeat split.
Qed.

Lemma X17_checkpoint_files_witness :
  exists df' out,
    get_all_coordinates Sample.provider Sample.number_coord Sample.schools_K
    = Ok (df', out) /\
    get_districts_for_coordinates Sample.in_box out Sample.arizona
    = Raise TypeError /\
    get_districts_for_schools Sample.provider Sample.number_coord Sample.in_box
      Sample.schools_K Sample.arizona "coords.csv" "districts.csv" []
    = ([("coords.csv", to_csv df')], Raise TypeError).
Proof.
  destruct (X17_checkpoint_files Sample.provider Sample.number_coord Sample.in_box
              Sample.schools_K Sample.arizona "coords.csv" "districts.csv" []
              _ _ eq_refl)
    as [(e & H & _) | (df' & out & H & _)].
  - discriminate H.
  - exists df', out. split; [exact H|].
    injection H as <- <-. split; reflexivity.
Defined.

(** X18. The tables stay rectangular: when every column of the school
    table has n rows and the run completes, both files hold n records, in
    row order, made of frames whose columns all have n rows, the added
    columns included. *)
Theorem X18_files_have_one_record_per_school
    (client : string -> result json) (coord_of : json -> result Q)
    (within : geometry -> geometry -> bool)
    (schools_df districts_gdf : DataFrame) (coords_path districts_path : string)
    (fs fs' : FileSystem) (n : nat) :
  well_formed schools_df n ->
  get_districts_for_schools client coord_of within schools_df districts_gdf
    coords_path districts_path fs = (fs', Ok tt) ->
  exists F1 F2,
    fs' = (districts_path, to_csv F2) :: (coords_path, to_csv F1) :: fs /\
    well_formed F1 n /\ well_formed F2 n /\
    map (hd CNone) (records (to_csv F1))
    = map (fun k => int_cell (Z.of_nat k)) (seq 0 n) /\
    map (hd CNone) (records (to_csv F2))
    = map (fun k => int_cell (Z.of_nat k)) (seq 0 n).
Proof.
  intros Hwf. rewrite get_districts_for_schools_steps.
  destruct (get_all_coordinates client coord_of schools_df)
    as [[df' out]|e] eqn:Hres; [|discriminate].
  destruct (get_districts_for_coordinates within out districts_gdf)
    as [series|e]; [|discriminate].
  intros H. injection H as <-.
  pose proof (get_all_coordinates_reads client coord_of schools_df df' out Hres)
    as (addr & city & st & full & coords & lo & hi
        & Ha & _ & _ & _ & _ & Hfull & Hcoords & Hdf' & _).
  pose proof (getcol_well_formed schools_df n _ _ Hwf Ha) as Hn.
  assert (Hwf' : well_formed df' n).
  { rewrite Hdf'. apply well_formed_setcol; [apply well_formed_setcol|].
    - exact Hwf.
    - rewrite length_map. congruence.
    - rewrite length_map. congruence. }
  assert (Hrows : nrows df' = n).
  { apply nrows_well_formed; [exact Hwf'|]. rewrite Hdf'. apply setcol_nonempty. }
  assert (Hwf2 : well_formed
                   (setcol df' "DISTRICTS" (align series (nrows df'))) n).
  { apply well_formed_setcol; [exact Hwf'|]. rewrite align_length. exact Hrows. }
  assert (Hrows2 : nrows (setcol df' "DISTRICTS" (align series (nrows df'))) = n).
  { apply nrows_well_formed; [exact Hwf2 | apply setcol_nonempty]. }
  eexists _, _. split; [reflexivity|].
  split; [exact Hwf'|]. split; [exact Hwf2|].
  unfold to_csv. cbn [records]. rewrite !map_map. cbn [hd].
  rewrite Hrows2, Hrows. split; reflexivity.
Qed.

Lemma X18_files_have_one_record_per_school_witness :
  exists F1 F2,
    fst (get_districts_for_schools Sample.provider Sample.number_coord
           Sample.in_box Sample.schools Sample.arizona
           "coords.csv" "districts.csv" [])
    = [("districts.csv", to_csv F2); ("coords.csv", to_csv F1)] /\
    well_formed F1 3 /\ well_formed F2 3 /\
    map (hd CNone) (records (to_csv F1)) = [int_cell 0; int_cell 1; int_cell 2] /\
    map (hd CNone) (records (to_csv F2)) = [int_cell 0; int_cell 1; int_cell 2].
Proof.
  apply (X18_files_have_one_record_per_school Sample.provider Sample.number_coord
           Sample.in_box Sample.schools Sample.arizona
           "coords.csv" "districts.csv" [] _ 3%nat).
  - unfold well_formed. repeat constructor.
  - reflexivity.
Defined.

(** X19. The whole run succeeds on a school table with one row at least,
    text addresses and numeric or missing grades, districts with numeric or
    missing grades and a geocoder that raises on no row.  The second file
    then holds, for every school row, the names of the districts whose
    polygon contains its point and pass the grade filter, and NaN when
    there is none. *)
Theorem X19_run_succeeds
    (client : string -> result json) (coord_of : json -> result Q)
    (within : geometry -> geometry -> bool)
    (schools_df : DataFrame) (rows : list school_record)
    (coords : list (option geometry))
    (slo shi names geoms dlo dhi : Column)
    (coords_path districts_path : string) (fs : FileSystem) :
  rows <> [] ->
  holds_schools schools_df rows ->
  getcol schools_df "LOGRADE" = Ok slo ->
  getcol schools_df "HIGRADE" = Ok shi ->
  Forall2 (fun r c => get_coordinate client coord_of (full_address r) = Ok c)
          rows coords ->
  Forall (fun c => number_or_missing c = true) slo ->
  Forall (fun c => number_or_missing c = true) shi ->
  Forall (fun c => number_or_missing c = true) dlo ->
  Forall (fun c => number_or_missing c = true) dhi ->
  let F1 := setcol (setcol schools_df "FULL_ADDRESS"
                           (map (fun r => CStr (full_address r)) rows))
                   "COORDINATE" (map coordinate_cell coords) in
  get_districts_for_schools client coord_of within schools_df
    (districts_frame names geoms dlo dhi) coords_path districts_path fs
  = ((districts_path,
      to_csv (setcol F1 "DISTRICTS"
                (map (districts_cell within (map coordinate_cell coords)
                        slo shi names geoms dlo dhi)
                     (seq 0 (nrows F1)))))
       :: (coords_path, to_csv F1) :: fs,
     Ok tt).
Proof.
  intros Hne Hholds Hlo Hhi Hcoords Hslo Hshi Hdlo Hdhi F1.
  rewrite get_districts_for_schools_steps.
  rewrite (get_all_coordinates_holds client coord_of schools_df rows slo shi coords
             Hne Hholds Hlo Hhi Hcoords).
  fold F1.
  rewrite (matcher_returns_matched within (map coordinate_cell coords)
             slo shi names geoms dlo dhi Hslo Hshi Hdlo Hdhi).
  unfold align.
  rewrite (map_ext _ (districts_cell within (map coordinate_cell coords)
                        slo shi names geoms dlo dhi)).
  - reflexivity.
  - intros i. apply matched_entry.
Qed.

Lemma X19_run_succeeds_witness :
  get_districts_for_schools Sample.provider Sample.number_coord Sample.in_box
    Sample.schools Sample.arizona "coords.csv" "districts.csv" []
  = ([("districts.csv",
       to_csv (setcol (setcol (setcol Sample.schools "FULL_ADDRESS"
                                 [CStr "1 Main St,Mesa,AZ"; CStr "2 Oak St,Yuma,AZ";
                                  CStr "3 Elm St,Ajo,AZ"])
                              "COORDINATE"
                              [CGeom (Point 1 1); CNone;
                               CGeom (Point (inject_Z 9) (inject_Z 9))])
                      "DISTRICTS"
                      [CList [CStr "Mesa Unified"; CStr "Mesa Elementary"];
                       CNum NNaN; CNum NNaN]));
      ("coords.csv",
       to_csv (setcol (setcol Sample.schools "FULL_ADDRESS"
                         [CStr "1 Main St,Mesa,AZ"; CStr "2 Oak St,Yuma,AZ";
                          CStr "3 Elm St,Ajo,AZ"])
                      "COORDINATE"
                      [CGeom (Point 1 1); CNone;
                       CGeom (Point (inject_Z 9) (inject_Z 9))]))],
     Ok tt).
Proof.
  apply (X19_run_succeeds Sample.provider Sample.number_coord Sample.in_box
           Sample.schools Sample.school_rows
           [Some (Point 1 1); None; Some (Point (inject_Z 9) (inject_Z 9))]
           [int_cell 0; int_cell 9; int_cell 1]
           [int_cell 5; int_cell 12; int_cell 8]
           [CStr "Mesa Unified"; CStr "Mesa Elementary"]
           [CGeom (Sample.box 0 0 2 2); CGeom (Sample.box 0 0 3 3)]
           [int_cell 0; int_cell (-2)] [int_cell 12; int_cell 8]
           "coords.csv" "districts.csv" []);
    try reflexivity; try discriminate; repeat constructor.
Defined.

Lemma upper_ascii (c : ascii) :
  Nat.ltb (nat_of_ascii c) 128 = true -> Nat.ltb (nat_of_ascii (upper c)) 128 = true.
Proof. destruct c as [[] [] [] [] [] [] [] []]; intros H; try discriminate; reflexivity. Qed.

Lemma str_upper_ascii (s : string) :
  is_ascii_string s = true -> is_ascii_string (str_upper s) = true.
Proof.
  unfold is_ascii_string, str_upper.
  rewrite list_ascii_of_string_of_list_ascii, !forallb_forall.
  intros H c Hc. apply in_map_iff in Hc as (c' & <- & Hc').
  apply upper_ascii. apply H. exact Hc'.
Qed.

Lemma py_upper_ascii (unicode_upper : string -> string) (s : string) :
  is_ascii_string s = true ->
  py_upper unicode_upper s = str_upper s /\
  py_upper unicode_upper (py_upper unicode_upper s) = py_upper unicode_upper s.
Proof.
  intros H. unfold py_upper. rewrite H.
  rewrite (str_upper_ascii s H), str_upper_idem. split; reflexivity.
Qed.

(** X20. The script's renaming keeps every column's values under its
    upper-cased name, provided no two names become the same when
    upper-cased, so that the columns of the school CSV are found whatever
    the letter case of their names.  For a name of ASCII characters the
    upper-cased name is its ASCII upper case, and upper-casing it again
    changes nothing. *)
Theorem X20_columns_found_in_any_case (unicode_upper : string -> string)
    (table : DataFrame) (name : string) (c : Column) :
  NoDup (map (py_upper unicode_upper) (columns table)) ->
  getcol table name = Ok c ->
  getcol (rename_columns (py_upper unicode_upper) table)
         (py_upper unicode_upper name) = Ok c /\
  (is_ascii_string name = true ->
   py_upper unicode_upper name = str_upper name /\
   py_upper unicode_upper (py_upper unicode_upper name)
   = py_upper unicode_upper name).
Proof.
  intros Hnodup Hget. split; [|apply py_upper_ascii].
  induction table as [|[m v] rest IH]; simpl in *; [discriminate|].
  inversion Hnodup as [|x xs Hnotin Hrest]; subst.
  destruct (String.eqb m name) eqn:E.
  - apply String.eqb_eq in E. subst m. rewrite String.eqb_refl. exact Hget.
  - destruct (String.eqb (py_upper unicode_upper m) (py_upper unicode_upper name))
      eqn:E'.
    + exfalso. apply Hnotin. apply String.eqb_eq in E'. rewrite E'.
      apply in_map. apply (getcol_in_columns rest name c Hget).
    + apply (IH Hrest Hget).
Qed.

Lemma X20_columns_found_in_any_case_witness :
  getcol (rename_columns (py_upper (fun s => s)) Sample.schools_csv) "PSS_CITY"
  = Ok [CStr "Mesa"; CStr "Yuma"; CStr "Ajo"].
Proof.
  apply (X20_columns_found_in_any_case (fun s => s) Sample.schools_csv "pss_city"
           [CStr "Mesa"; CStr "Yuma"; CStr "Ajo"]).
  - simpl. repeat constructor; simpl; intros H;
      repeat (destruct H as [H|H]; [discriminate|]); exact H.
  - reflexivity.
Defined.

(** X21. The script writes nothing when the school CSV cannot be read,
    when the polygon file cannot be read or loaded for region 04, when the
    client cannot be created, and when the resolution raises; it ends with
    the exception of that step.  When the matcher raises it has written
    data/schools_with_coords.csv alone.  Otherwise it succeeds, having
    written that file and then data/schools_with_districts.csv, whose
    headers are the unnamed row-label field, the upper-cased column names
    of the school CSV, FULL_ADDRESS and COORDINATE, and in the second file
    DISTRICTS.  Files written earlier are kept in every case. *)
Theorem X21_script_outputs
    (float_value : string -> numeric) (coord_of : json -> result Q)
    (within : geometry -> geometry -> bool)
    (read_csv gpd_read_file : string -> result DataFrame)
    (unicode_upper : string -> string)
    (environ : list (string * string))
    (Client : option string -> result (string -> result json))
    (fs fs' : FileSystem) (r : result unit) :
  main float_value coord_of within read_csv gpd_read_file unicode_upper
       environ Client fs
  = (fs', r) ->
  (exists e, read_csv "data/school_data.csv" = Raise e /\
             fs' = fs /\ r = Raise e) \/
  (exists table,
      read_csv "data/school_data.csv" = Ok table /\
      ((exists e,
           (gdf <- gpd_read_file
                     "data/us_school_districts/EDGE_SCHOOLDISTRICT_TL_23_SY2223.shp" ;;
            read_shapefile float_value gdf "04") = Raise e /\
           fs' = fs /\ r = Raise e) \/
       (exists districts,
           (gdf <- gpd_read_file
                     "data/us_school_districts/EDGE_SCHOOLDISTRICT_TL_23_SY2223.shp" ;;
            read_shapefile float_value gdf "04") = Ok districts /\
           ((exists e,
                Client (environ_get environ "GOOGLE_MAPS_API_KEY") = Raise e /\
                fs' = fs /\ r = Raise e) \/
            (exists client,
                Client (environ_get environ "GOOGLE_MAPS_API_KEY") = Ok client /\
                (let schools_df := rename_columns (py_upper unicode_upper) table in
                 (exists e,
                     get_all_coordinates client coord_of schools_df = Raise e /\
                     fs' = fs /\ r = Raise e) \/
                 (exists df' out,
                     get_all_coordinates client coord_of schools_df = Ok (df', out) /\
                     ((exists e,
                          get_districts_for_coordinates within out districts = Raise e /\
                          (exists csv1,
                              fs' = ("data/schools_with_coords.csv", csv1) :: fs) /\
                          r = Raise e) \/
                      (exists series csv1 csv2,
                          get_districts_for_coordinates within out districts
                          = Ok series /\
                          fs' = ("data/schools_with_districts.csv", csv2)
                                  :: ("data/schools_with_coords.csv", csv1) :: fs /\
                          r = Ok tt /\
                          header csv1
                          = "" :: with_column
                                    (with_column
                                       (map (py_upper unicode_upper) (columns table))
                                       "FULL_ADDRESS")
                                    "COORDINATE" /\
                          header csv2
                          = "" :: with_column
                                    (with_column
                                       (with_column
                                          (map (py_upper unicode_upper)
                                               (columns table))
                                          "FULL_ADDRESS")
                                       "COORDINATE")
                                    "DISTRICTS"))))))))).
Proof.
  unfold main, create_gmaps_client.
  change SCHOOLS_PATH with "data/school_data.csv".
  change COORDS_PATH with "data/schools_with_coords.csv".
  change DISTRICTS_PATH with "data/schools_with_districts.csv".
  change DISTRICT_SHAPEFILE_PATH
    with "data/us_school_districts/EDGE_SCHOOLDISTRICT_TL_23_SY2223.shp".
  destruct (read_csv "data/school_data.csv") as [table|e] eqn:Hcsv.
  2:{ intros H. injection H as <- <-. left. exists e. repeat split. }
  destruct (gdf <- gpd_read_file
                     "data/us_school_districts/EDGE_SCHOOLDISTRICT_TL_23_SY2223.shp" ;;
            read_shapefile float_value gdf "04") as [districts|e] eqn:Hload.
  2:{ intros H. injection H as <- <-. right. exists table.
      split; [reflexivity|]. left. exists e. repeat split. }
  destruct (Client (environ_get environ "GOOGLE_MAPS_API_KEY")) as [client|e]
    eqn:Hclient.
  2:{ intros H. injection H as <- <-. right. exists table.
      split; [reflexivity|]. right. exists districts. split; [reflexivity|].
      left. exists e. repeat split. }
  rewrite get_districts_for_schools_steps.
  destruct (get_all_coordinates client coord_of
              (rename_columns (py_upper unicode_upper) table))
    as [[df' out]|e] eqn:Hres.
  2:{ intros H. injection H as <- <-. right. exists table.
      split; [reflexivity|]. right. exists districts. split; [reflexivity|].
      right. exists client. split; [reflexivity|]. cbv zeta.
      left. exists e. split; [exact Hres|]. split; reflexivity. }
  destruct (get_districts_for_coordinates within out districts) as [series|e]
    eqn:Hm.
  2:{ intros H. injection H as <- <-. right. exists table.
      split; [reflexivity|]. right. exists districts. split; [reflexivity|].
      right. exists client. split; [reflexivity|]. cbv zeta.
      right. exists df', out. split; [exact Hres|].
      left. exists e. split; [exact Hm|].
      split; [eexists; reflexivity | reflexivity]. }
  intros H. injection H as <- <-. right. exists table.
  split; [reflexivity|]. right. exists districts. split; [reflexivity|].
  right. exists client. split; [reflexivity|]. cbv zeta.
  right. exists df', out. split; [exact Hres|].
  right. exists series. eexists _, _. split; [exact Hm|].
  split; [reflexivity|]. split; [reflexivity|].
  apply get_all_coordinates_inv in Hres
    as (full & coords & lo & hi & _ & _ & _ & -> & _).
  unfold to_csv. cbn [header].
  rewrite !columns_setcol, columns_rename. split; reflexivity.
Qed.

Lemma X21_script_outputs_witness :
  exists csv1 csv2,
    main Sample.no_floats Sample.number_coord Sample.in_box
      Sample.csv_reader Sample.shapefile_reader (fun s => s) Sample.environment
      Sample.make_client []
    = ([("data/schools_with_districts.csv", csv2);
        ("data/schools_with_coords.csv", csv1)], Ok tt) /\
    header csv2
    = [""; "PSS_ADDRESS"; "PSS_CITY"; "PSS_STABB"; "LOGRADE"; "HIGRADE";
       "FULL_ADDRESS"; "COORDINATE"; "DISTRICTS"].
Proof.
  destruct (X21_script_outputs Sample.no_floats Sample.number_coord Sample.in_box
              Sample.csv_reader Sample.shapefile_reader (fun s => s)
              Sample.environment Sample.make_client [] _ _ eq_refl)
    as [(e & H & _) | (table & Ht & Hrest)].
  - discriminate H.
  - injection Ht as <-.
    destruct Hrest as [(e & H & _) | (districts & Hd & Hrest)].
    + vm_compute in H. discriminate H.
    + vm_compute in Hd. injection Hd as <-.
      destruct Hrest as [(e & H & _) | (client & Hc & Hrest)].
      * discriminate H.
      * injection Hc as <-. cbv zeta in Hrest.
        destruct Hrest as [(e & H & _) | (df' & out & Hres & Hrest)].
        -- vm_compute in H. discriminate H.
        -- vm_compute in Hres. injection Hres as <- <-.
           destruct Hrest
             as [(e & H & _) | (series & csv1 & csv2 & Hm & Hfs & _ & _ & H2)].
           ++ vm_compute in H. discriminate H.
           ++ exists csv1, csv2. injection Hfs as <- <-.
              split; [reflexivity | exact H2].
Defined.
